(** * fuse_pxebootfs: a shallow embedding of [fuse_pxebootfs.py]

    The program is a FUSE filesystem whose per-client files are rendered
    from a pxelinux template; reading such a file provisions the client
    (directories, an AUFS mount, an NFS export).

    Layout of this development:
    - [Py]      the Python 2 built-ins the program calls ([int], [str],
                ["%02X" %], slicing, [find], [replace], [split], [join],
                [os.path.basename], [os.path.join], the compiled pattern);
    - [Codec]   [hex2ip] and [ip2hex];
    - [OS]      the operating system as the program sees it: a tree of
                paths, [os.mkdir], [os.rmdir], [os.listdir], [os.system];
    - [PXE]     the methods of class [PXEBootFS], in a state-and-exception
                monad over the object's attributes and the OS;
    - [Threads] [get_next_fsid] statement by statement, for interleavings;
    - [Spec]    the predicates the statements are written with;
    - [Fixture] concrete systems for the examples;
    - the lemmas and theorems. *)

From Stdlib Require Import ZArith String Ascii DecimalString QArith_base.
From stdpp Require Import gmap strings list fin_maps.

Open Scope string_scope.
Open Scope Z_scope.

(** ** Exceptions and results *)

(** The exceptions the program can meet.  An [OSError] or [IOError]
    carries its errno and the text [str(err)] yields; a [ValueError] the
    base and the literal [int] refused; a [PXEBootError] its message. *)
Inductive exn : Type :=
| OSError (errno : Z) (text : string)
| IOError (errno : Z) (text : string)
| ValueError (base : Z) (literal : string)
| PXEBootError (msg : string).

Inductive result (A : Type) : Type :=
| Ok (a : A)
| Raise (e : exn).
Arguments Ok {A} a.
Arguments Raise {A} e.

#[global] Instance result_ret : MRet result := fun _ a => Ok a.
#[global] Instance result_bind : MBind result := fun _ _ f r =>
  match r with Ok a => f a | Raise e => Raise e end.

(** Python 2's eager [map] over a callable that can raise. *)
Fixpoint map_result {A B} (f : A -> result B) (xs : list A) : result (list B) :=
  match xs with
  | [] => Ok []
  | x :: rest =>
      match f x with
      | Raise e => Raise e
      | Ok y => match map_result f rest with
                | Raise e => Raise e
                | Ok ys => Ok (y :: ys)
                end
      end
  end.

(** ** Python built-ins *)

Module Py.

Definition len (s : string) : Z := Z.of_nat (String.length s).

(** [s[i:j]]: a negative index counts from the end, both are clamped. *)
Definition clamp (n i : Z) : Z :=
  if i <? 0 then Z.max (i + n) 0 else Z.min i n.

Definition slice (s : string) (i j : Z) : string :=
  let n := len s in
  let lo := clamp n i in
  let hi := clamp n j in
  substring (Z.to_nat lo) (Z.to_nat (hi - lo)) s.

Definition startswith (s pre : string) : bool := String.prefix pre s.

(** [s.find(sub)]: the lowest index where [sub] starts, or -1. *)
Fixpoint find_from (sub s : string) (i : Z) : Z :=
  if String.prefix sub s then i
  else match s with
       | EmptyString => -1
       | String _ r => find_from sub r (i + 1)
       end.

Definition find (s sub : string) : Z := find_from sub s 0.

(** [s.replace(old, new)]: every occurrence, left to right, without
    overlap.  [skip] counts the characters of a match still to be dropped. *)
Fixpoint replace_go (old new : string) (skip : nat) (s : string) : string :=
  match s with
  | EmptyString =>
      match old with EmptyString => new | _ => EmptyString end
  | String c r =>
      match skip with
      | S k => replace_go old new k r
      | O =>
          if String.prefix old s then
            match old with
            | EmptyString => new +:+ String c (replace_go old new 0 r)
            | String _ o => new +:+ replace_go old new (String.length o) r
            end
          else String c (replace_go old new 0 r)
      end
  end.

Definition replace (s old new : string) : string := replace_go old new 0 s.

(** [s.count(sub)]: the occurrences [replace] would rewrite. *)
Fixpoint count_go (sub : string) (skip : nat) (s : string) : Z :=
  match s with
  | EmptyString =>
      match sub with EmptyString => 1 | _ => 0 end
  | String c r =>
      match skip with
      | S k => count_go sub k r
      | O =>
          if String.prefix sub s then
            match sub with
            | EmptyString => 1 + count_go sub 0 r
            | String _ o => 1 + count_go sub (String.length o) r
            end
          else count_go sub 0 r
      end
  end.

Definition count (s sub : string) : Z := count_go sub 0 s.

(** [s.split(sep)] for a one-character separator. *)
Fixpoint split (sep : ascii) (s : string) : list string :=
  match s with
  | EmptyString => [EmptyString]
  | String c r =>
      if Ascii.eqb c sep then EmptyString :: split sep r
      else match split sep r with
           | h :: t => String c h :: t
           | [] => [String c EmptyString]
           end
  end.

(** [sep.join(parts)] *)
Fixpoint join (sep : string) (parts : list string) : string :=
  match parts with
  | [] => EmptyString
  | [x] => x
  | x :: rest => x +:+ sep +:+ join sep rest
  end.

(** *** [int(s, base)] *)

Definition code (c : ascii) : Z := Z.of_N (N_of_ascii c).

Definition isspace (c : ascii) : bool :=
  (code c =? 32) || ((9 <=? code c) && (code c <=? 13)).

Definition digit_value (c : ascii) : option Z :=
  let n := code c in
  if (48 <=? n) && (n <=? 57) then Some (n - 48)
  else if (97 <=? n) && (n <=? 122) then Some (n - 87)
  else if (65 <=? n) && (n <=? 90) then Some (n - 55)
  else None.

Definition is_digit (base : Z) (c : ascii) : bool :=
  match digit_value c with
  | Some d => d <? base
  | None => false
  end.

Fixpoint lstrip (s : string) : string :=
  match s with
  | EmptyString => EmptyString
  | String c r => if isspace c then lstrip r else s
  end.

(** The digits of [strtoul]: the value read so far, whether a digit was
    consumed, and what is left. *)
Fixpoint scan_digits (base acc : Z) (seen : bool) (s : string)
  : Z * bool * string :=
  match s with
  | EmptyString => (acc, seen, EmptyString)
  | String c r =>
      match digit_value c with
      | Some d =>
          if d <? base then scan_digits base (acc * base + d) true r
          else (acc, seen, s)
      | None => (acc, seen, s)
      end
  end.

(** For base 16 a leading [0x] or [0X] is dropped when a hexadecimal digit
    follows it. *)
Definition skip_prefix (base : Z) (s : string) : string :=
  if base =? 16 then
    match s with
    | String z (String x (String d r as t)) =>
        if Ascii.eqb z "0" && (Ascii.eqb x "x" || Ascii.eqb x "X")
           && is_digit 16 d
        then t else s
    | _ => s
    end
  else s.

Definition split_sign (s : string) : Z * string :=
  match s with
  | String c r =>
      if Ascii.eqb c "-" then (-1, r)
      else if Ascii.eqb c "+" then (1, r)
      else (1, s)
  | EmptyString => (1, s)
  end.

(** Leading blanks, a sign, blanks again (CPython 2 skips them on both
    sides of the sign), the digits, trailing blanks, and nothing else. *)
Definition int (s : string) (base : Z) : result Z :=
  let '(sign, s2) := split_sign (lstrip s) in
  let '(v, seen, rest) := scan_digits base 0 false (skip_prefix base (lstrip s2)) in
  if seen && String.eqb (lstrip rest) EmptyString
  then Ok (sign * v)
  else Raise (ValueError base s).

(** *** [str(n)] and ["%02X" % n] *)

Definition str (n : Z) : string := NilZero.string_of_int (Z.to_int n).

Fixpoint hex_upper (u : Hexadecimal.uint) : string :=
  match u with
  | Hexadecimal.Nil => EmptyString
  | Hexadecimal.D0 r => String "0" (hex_upper r)
  | Hexadecimal.D1 r => String "1" (hex_upper r)
  | Hexadecimal.D2 r => String "2" (hex_upper r)
  | Hexadecimal.D3 r => String "3" (hex_upper r)
  | Hexadecimal.D4 r => String "4" (hex_upper r)
  | Hexadecimal.D5 r => String "5" (hex_upper r)
  | Hexadecimal.D6 r => String "6" (hex_upper r)
  | Hexadecimal.D7 r => String "7" (hex_upper r)
  | Hexadecimal.D8 r => String "8" (hex_upper r)
  | Hexadecimal.D9 r => String "9" (hex_upper r)
  | Hexadecimal.Da r => String "A" (hex_upper r)
  | Hexadecimal.Db r => String "B" (hex_upper r)
  | Hexadecimal.Dc r => String "C" (hex_upper r)
  | Hexadecimal.Dd r => String "D" (hex_upper r)
  | Hexadecimal.De r => String "E" (hex_upper r)
  | Hexadecimal.Df r => String "F" (hex_upper r)
  end.

(** ["%X" % n] for [n >= 0] *)
Definition fmt_X (n : Z) : string := hex_upper (N.to_hex_uint (Z.to_N n)).

(** ["%02X" % n]: the sign first, then zeros up to a width of two. *)
Definition fmt_02X (n : Z) : string :=
  if n <? 0 then "-" +:+ fmt_X (- n)
  else let h := fmt_X n in
       if (String.length h <? 2)%nat then "0" +:+ h else h.

(** *** [os.path] (posixpath) *)

Fixpoint has_slash (s : string) : bool :=
  match s with
  | EmptyString => false
  | String c r => Ascii.eqb c "/" || has_slash r
  end.

(** [os.path.basename(p)]: what follows the last slash. *)
Fixpoint basename (p : string) : string :=
  match p with
  | EmptyString => EmptyString
  | String c r =>
      if has_slash r then basename r
      else if Ascii.eqb c "/" then r
      else p
  end.

Definition endswith_slash (s : string) : bool :=
  match String.rev s with
  | String c _ => Ascii.eqb c "/"
  | EmptyString => false
  end.

(** [os.path.join(a, b)] *)
Definition path_join (a b : string) : string :=
  if String.prefix "/" b then b
  else if String.eqb a EmptyString || endswith_slash a then a +:+ b
  else a +:+ "/" +:+ b.

(** *** [re.compile(r'^([A-Z0-9]{8})$').match] *)

Definition in_class (c : ascii) : bool :=
  let n := code c in
  ((65 <=? n) && (n <=? 90)) || ((48 <=? n) && (n <=? 57)).

Definition newline : ascii := ascii_of_N 10.

Fixpoint match_class (n : nat) (s : string) : option string :=
  match n with
  | O => Some s
  | S k => match s with
           | String c r => if in_class c then match_class k r else None
           | EmptyString => None
           end
  end.

(** Eight characters of the class, then the end of the string; Python's
    [$] also matches just before a newline that ends the string. *)
Definition node_re_match (s : string) : bool :=
  match match_class 8 s with
  | Some rest =>
      String.eqb rest EmptyString
      || String.eqb rest (String newline EmptyString)
  | None => false
  end.

End Py.

(** ** The identifier codec *)

Module Codec.

(** [hex2ip]: Converts 'C0A80101' to '192.168.1.1' *)
Definition hex2ip (ip_hex : string) : result string :=
  parts ← map_result (fun x => v ← Py.int x 16; Ok (Py.str v))
            [Py.slice ip_hex 0 2; Py.slice ip_hex 2 4;
             Py.slice ip_hex 4 6; Py.slice ip_hex 6 8];
  Ok (Py.join "." parts).

(** [ip2hex]: Converts '192.168.1.1' to 'C0A80101', etc. *)
Definition ip2hex (ip_addr : string) : result string :=
  parts ← map_result (fun x => v ← Py.int x 10; Ok (Py.fmt_02X v))
            (Py.split "." ip_addr);
  Ok (Py.join EmptyString parts).

End Codec.


(** ** The operating system, as far as the program looks at it *)

Module OS.

(** What [os.lstat] and [os.stat] tell about a path: a directory, a
    directory on which a filesystem is mounted, a symbolic link that leads
    to a directory, or anything that is not a directory. *)
Inductive kind : Type := KDir | KMount | KLinkDir | KFile.

#[global] Instance kind_eq_dec : EqDecision kind.
Proof. solve_decision. Defined.

(** The tree of paths, and the shell commands issued so far through
    [os.system], oldest first. *)
Record world : Type := World {
  fs : gmap string kind;
  trace : list string;
}.

(** What the program cannot decide: whether the system refuses a
    [mkdir], an [rmdir] or the reading of a directory (permissions, a
    read-only or full disk, a directory in use), what a shell command does
    to the tree and the status it exits with, the contents of regular
    files, the clock, and the ids of the process. *)
Record env : Type := Env {
  mkdir_error : string -> option (Z * string);
  rmdir_error : string -> option (Z * string);
  listdir_error : string -> option (Z * string);
  run_command : string -> gmap string kind -> Z * gmap string kind;
  file_content : string -> option string;
  getuid : Z;
  getgid : Z;
}.

Definition EEXIST : Z := 17.
Definition ENOENT : Z := 2.
Definition ENOTDIR : Z := 20.
Definition ENOTEMPTY : Z := 39.
Definition EBUSY : Z := 16.

(** [str(err)] for an error with errno, message and a plain path *)
Definition error_text (errno : Z) (strerror path : string) : string :=
  "[Errno " +:+ Py.str errno +:+ "] " +:+ strerror +:+ ": '" +:+ path +:+ "'".

Definition os_error (errno : Z) (strerror path : string) : exn :=
  OSError errno (error_text errno strerror path).

Definition path_exists (w : world) (p : string) : bool :=
  match fs w !! p with Some _ => true | None => false end.

Definition path_isdir (w : world) (p : string) : bool :=
  match fs w !! p with
  | Some KDir | Some KMount | Some KLinkDir => true
  | _ => false
  end.

Definition path_ismount (w : world) (p : string) : bool :=
  match fs w !! p with Some KMount => true | _ => false end.

(** [q] is an entry of directory [d]: joining [d] and the last component
    of [q] gives [q] back. *)
Definition child_of (d q : string) : bool :=
  String.eqb q (Py.path_join d (Py.basename q))
  && negb (String.eqb (Py.basename q) EmptyString).

(** The paths of the entries of [d], in the order the system lists them. *)
Definition entries_under (w : world) (d : string) : list string :=
  List.filter (child_of d) (map_to_list (fs w)).*1.

(** [os.listdir(d)]: the names of the entries; [OSError] when [d] is
    missing or is not a directory, or when the system refuses to read it. *)
Definition listdir (E : env) (w : world) (d : string) : result (list string) :=
  match fs w !! d with
  | None => Raise (os_error ENOENT "No such file or directory" d)
  | Some KFile => Raise (os_error ENOTDIR "Not a directory" d)
  | Some KDir | Some KMount | Some KLinkDir =>
      match listdir_error E d with
      | Some (errno, text) => Raise (OSError errno text)
      | None => Ok (map Py.basename (entries_under w d))
      end
  end.

(** [os.mkdir(p)] *)
Definition mkdir (E : env) (p : string) (w : world) : result unit * world :=
  if path_exists w p then (Raise (os_error EEXIST "File exists" p), w)
  else match mkdir_error E p with
       | Some (errno, text) => (Raise (OSError errno text), w)
       | None => (Ok tt, World (<[p := KDir]> (fs w)) (trace w))
       end.

(** [os.rmdir(p)]: only an empty real directory can go, and only when the
    system does not refuse. *)
Definition rmdir (E : env) (p : string) (w : world) : result unit * world :=
  match fs w !! p with
  | None => (Raise (os_error ENOENT "No such file or directory" p), w)
  | Some KFile | Some KLinkDir =>
      (Raise (os_error ENOTDIR "Not a directory" p), w)
  | Some KMount => (Raise (os_error EBUSY "Device or resource busy" p), w)
  | Some KDir =>
      match entries_under w p with
      | _ :: _ => (Raise (os_error ENOTEMPTY "Directory not empty" p), w)
      | [] =>
          match rmdir_error E p with
          | Some (errno, text) => (Raise (OSError errno text), w)
          | None => (Ok tt, World (delete p (fs w)) (trace w))
          end
      end
  end.

(** [os.system(cmd)]: the command runs, its exit status comes back; no
    exception is raised when the command fails. *)
Definition system (E : env) (cmd : string) (w : world) : Z * world :=
  let '(status, fs') := run_command E cmd (fs w) in
  (status, World fs' (trace w ++ [cmd])).

End OS.

(** ** Class [PXEBootFS] *)

Module PXE.

(** [stat] and [errno] constants *)
Definition S_IFMT : Z := 61440.   (* 0o170000 *)
Definition S_IFDIR : Z := 16384.  (* 0o040000 *)
Definition S_IFREG : Z := 32768.  (* 0o100000 *)
Definition S_IFLNK : Z := 40960.  (* 0o120000 *)
Definition ENOENT : Z := 2.

(** Class [Stat] *)
Record Stat : Type := MkStat {
  st_atime : Z;
  st_ctime : Z;
  st_mtime : Z;
  st_dev : Z;
  st_gid : Z;
  st_ino : Z;
  st_mode : Z;
  st_size : Z;
  st_uid : Z;
  st_nlink : Z;
}.

(** [status.st_mode = m; status.st_size = sz; status.st_nlink = n] *)
Definition with_mode_size_nlink (m sz n : Z) (s : Stat) : Stat :=
  MkStat (st_atime s) (st_ctime s) (st_mtime s) (st_dev s) (st_gid s)
         (st_ino s) m sz (st_uid s) n.

(** The attributes of a [PXEBootFS] object *)
Record self : Type := Self {
  conf_root_dir : string;
  conf_node_dir : string;
  conf_overlay_dir : string;
  conf_pxe_template : string;
  pxe_template : string;
  pxe_template_length : Z;
  _next_fsid : Z;
  root_time : Q;
}.

(** Assignments to single attributes *)
Definition with_conf_root_dir (v : string) (o : self) : self :=
  Self v (conf_node_dir o) (conf_overlay_dir o) (conf_pxe_template o)
       (pxe_template o) (pxe_template_length o) (_next_fsid o) (root_time o).
Definition with_conf_node_dir (v : string) (o : self) : self :=
  Self (conf_root_dir o) v (conf_overlay_dir o) (conf_pxe_template o)
       (pxe_template o) (pxe_template_length o) (_next_fsid o) (root_time o).
Definition with_conf_overlay_dir (v : string) (o : self) : self :=
  Self (conf_root_dir o) (conf_node_dir o) v (conf_pxe_template o)
       (pxe_template o) (pxe_template_length o) (_next_fsid o) (root_time o).
Definition with_conf_pxe_template (v : string) (o : self) : self :=
  Self (conf_root_dir o) (conf_node_dir o) (conf_overlay_dir o) v
       (pxe_template o) (pxe_template_length o) (_next_fsid o) (root_time o).
Definition with_pxe_template (v : string) (o : self) : self :=
  Self (conf_root_dir o) (conf_node_dir o) (conf_overlay_dir o)
       (conf_pxe_template o) v (pxe_template_length o) (_next_fsid o)
       (root_time o).
Definition with_pxe_template_length (v : Z) (o : self) : self :=
  Self (conf_root_dir o) (conf_node_dir o) (conf_overlay_dir o)
       (conf_pxe_template o) (pxe_template o) v (_next_fsid o) (root_time o).
Definition with_next_fsid (v : Z) (o : self) : self :=
  Self (conf_root_dir o) (conf_node_dir o) (conf_overlay_dir o)
       (conf_pxe_template o) (pxe_template o) (pxe_template_length o) v
       (root_time o).
Definition with_root_time (v : Q) (o : self) : self :=
  Self (conf_root_dir o) (conf_node_dir o) (conf_overlay_dir o)
       (conf_pxe_template o) (pxe_template o) (pxe_template_length o)
       (_next_fsid o) v.

(** The options of section [PXEBOOTFS] as [config.get] returns them *)
Record config : Type := Config {
  cfg_pxe_template : string;
  cfg_node_dir : string;
  cfg_root_dir : string;
  cfg_overlay_dir : string;
  cfg_start_fsid : string;
}.

Record state : Type := State {
  obj : self;
  os : OS.world;
}.

(** A method: it reads and writes the object and the system, and returns
    or raises.  What it wrote before raising stays written. *)
Definition M (A : Type) : Type := state -> result A * state.

Definition ret {A} (a : A) : M A := fun s => (Ok a, s).

Definition bind {A B} (m : M A) (k : A -> M B) : M B :=
  fun s => match m s with
           | (Ok a, s') => k a s'
           | (Raise e, s') => (Raise e, s')
           end.

Definition raise {A} (e : exn) : M A := fun s => (Raise e, s).

Definition lift {A} (r : result A) : M A := fun s => (r, s).

(** [try: m except OSError, err: h(err)] *)
Definition try_except_OSError {A} (m : M A) (h : string -> M A) : M A :=
  fun s => match m s with
           | (Raise (OSError _ text), s') => h text s'
           | other => other
           end.

Definition get_self : M self := fun s => (Ok (obj s), s).
Definition set_self (f : self -> self) : M unit :=
  fun s => (Ok tt, State (f (obj s)) (os s)).
Definition ask_os {A} (f : OS.world -> A) : M A := fun s => (Ok (f (os s)), s).
Definition do_os {A} (f : OS.world -> result A * OS.world) : M A :=
  fun s => let '(r, w) := f (os s) in (r, State (obj s) w).

Notation "x <- m ;; k" := (bind m (fun x => k))
  (at level 90, m at next level, right associativity).
Notation "m ;;; k" := (bind m (fun _ => k))
  (at level 90, right associativity).

Definition when (b : bool) (m : M unit) : M unit := if b then m else ret tt.

Section Methods.

Context (E : OS.env).

Definition os_system (cmd : string) : M Z :=
  do_os (fun w => let '(st, w') := OS.system E cmd w in (Ok st, w')).

(** [int(timestamp)] of a time stamp: truncation towards zero *)
Definition int_of_time (t : Q) : Z := Z.quot (Qnum t) (Zpos (Qden t)).

(** [Stat.__init__] *)
Definition new_Stat (timestamp : Q) : Stat :=
  {| st_atime := int_of_time timestamp;
     st_ctime := int_of_time timestamp;
     st_mtime := int_of_time timestamp;
     st_dev := 0;
     st_gid := OS.getgid E;
     st_ino := 0;
     st_mode := 0;
     st_size := 0;
     st_uid := OS.getuid E;
     st_nlink := 0 |}.

(** [load_config] *)
Definition load_config (c : config) : M unit :=
  set_self (with_conf_pxe_template (cfg_pxe_template c)) ;;;
  set_self (with_conf_node_dir (cfg_node_dir c)) ;;;
  set_self (with_conf_root_dir (cfg_root_dir c)) ;;;
  set_self (with_conf_overlay_dir (cfg_overlay_dir c)) ;;;
  n <- lift (Py.int (cfg_start_fsid c) 10) ;;
  set_self (with_next_fsid n).

(** [load_template], past the reading of the file: [text] is what
    [file(path,'r').read(os.stat(path).st_size)] returned. *)
Definition load_template_text (text : string) : M unit :=
  set_self (with_pxe_template text) ;;;
  o <- get_self ;;
  if Py.find (pxe_template o) "<NODE>" =? -1 then
    raise (PXEBootError "Could not find <NODE> in PXE config template")
  else
    set_self (with_pxe_template_length
                (Py.len (pxe_template o) - Py.len "<NODE>" + 8)).

(** [load_template]: a file that cannot be opened raises before anything
    is stored. *)
Definition load_template (path : string) : M unit :=
  match OS.file_content E path with
  | None =>
      raise (IOError OS.ENOENT
               (OS.error_text OS.ENOENT "No such file or directory" path))
  | Some text => load_template_text text
  end.

(** [get_node_list] *)
Fixpoint get_node_list_loop (names : list string) (nodes : list string)
  : M (list string) :=
  match names with
  | [] => ret nodes
  | node :: rest =>
      o <- get_self ;;
      let ndir := Py.path_join (conf_node_dir o) node in
      ismount <- ask_os (fun w => OS.path_ismount w ndir) ;;
      if ismount then
        get_node_list_loop rest (nodes ++ [Py.basename ndir])
      else
        isdir <- ask_os (fun w => OS.path_isdir w ndir) ;;
        if isdir then
          do_os (OS.rmdir E ndir) ;;;
          get_node_list_loop rest nodes
        else get_node_list_loop rest nodes
  end.

Definition get_node_list : M (list string) :=
  o <- get_self ;;
  names <- do_os (fun w => (OS.listdir E w (conf_node_dir o), w)) ;;
  get_node_list_loop names [].

(** [get_next_fsid] *)
Definition get_next_fsid : M Z :=
  o <- get_self ;;
  let fsid := _next_fsid o in
  o <- get_self ;;
  set_self (with_next_fsid (_next_fsid o + 1)) ;;;
  ret fsid.

Definition mount_command (ro rw mnt : string) : string :=
  "mount -t aufs -o br:" +:+ rw +:+ "=rw:" +:+ ro +:+ "=ro none " +:+ mnt.

Definition export_command (mnt fsid ip : string) : string :=
  "exportfs -o rw,no_root_squash,fsid=" +:+ fsid +:+ " " +:+ ip +:+ ":" +:+ mnt.

(** [setup_node] *)
Definition setup_node (node : string) : M string :=
  o <- get_self ;;
  let node_path := Py.path_join (conf_node_dir o) node in
  (ex <- ask_os (fun w => OS.path_exists w node_path) ;;
   when (negb ex) (do_os (OS.mkdir E node_path))) ;;;
  let overlay_path := Py.path_join (conf_overlay_dir o) node in
  (ex <- ask_os (fun w => OS.path_exists w overlay_path) ;;
   when (negb ex) (do_os (OS.mkdir E overlay_path))) ;;;
  let root_path := conf_root_dir o in
  (ismount <- ask_os (fun w => OS.path_ismount w node_path) ;;
   when (negb ismount)
     (os_system (mount_command root_path overlay_path node_path) ;;; ret tt)) ;;;
  (* the operands of the format, in the order they are evaluated *)
  fsid <- get_next_fsid ;;
  ip <- lift (Codec.hex2ip node) ;;
  os_system (export_command node_path (Py.str fsid) ip) ;;;
  ret node.

(** [get_pxe_data] *)
Definition get_pxe_data (node : string) : M string :=
  o <- get_self ;;
  ret (Py.replace (pxe_template o) "<NODE>" node).

(** What [getattr] returns: a [Stat], or a negated errno. *)
Inductive attr : Type :=
| AStat (s : Stat)
| AErr (code : Z).

(** [getattr] *)
Definition getattr (path : string) : M attr :=
  o <- get_self ;;
  let status := new_Stat (root_time o) in
  if String.eqb path "/" || String.eqb path "/by-ip" then
    ret (AStat (with_mode_size_nlink (Z.lor S_IFDIR 493) 4096 2 status))
  else if Py.startswith path "/by-ip/" && (Py.len "/by-ip" <? Py.len path) then
    ret (AStat (with_mode_size_nlink (Z.lor S_IFLNK 493) 4096 2 status))
  else if Py.node_re_match (Py.basename path) then
    ret (AStat (with_mode_size_nlink (Z.lor S_IFREG 438)
                                     (pxe_template_length o) 1 status))
  else ret (AErr (- ENOENT)).

(** [open] *)
Definition open (path : string) (flags : Z) : M Z :=
  let node := Py.basename path in
  if Py.node_re_match node then ret 0 else ret (-1).

(** [read] *)
Definition read (path : string) (length offset : Z) : M string :=
  let node := Py.basename path in
  if Py.node_re_match node then
    caught <- try_except_OSError
                (setup_node node ;;; ret None)
                (fun text => ret (Some text)) ;;
    match caught with
    | Some text => ret text
    | None =>
        data <- get_pxe_data node ;;
        ret (Py.slice data offset (offset + length))
    end
  else ret EmptyString.

(** [readlink] *)
Definition readlink (path : string) : M string :=
  if Py.startswith path "/by-ip" then
    node <- lift (Codec.ip2hex (Py.basename path)) ;;
    o <- get_self ;;
    ret (Py.path_join (conf_node_dir o) node)
  else ret ".".

(** A [for] loop over a list; it is left when the body raises. *)
Fixpoint for_each {A} (xs : list A) (body : A -> M unit) : M unit :=
  match xs with
  | [] => ret tt
  | x :: rest => body x ;;; for_each rest body
  end.

Definition R_OK : Z := 4.
Definition W_OK : Z := 2.

(** [verify_permissions]; [access] is [os.access]. *)
Definition verify_permissions (access : string -> Z -> bool) : M unit :=
  o <- get_self ;;
  for_each [conf_node_dir o; conf_root_dir o; conf_overlay_dir o]
    (fun dir =>
       isdir <- ask_os (fun w => OS.path_isdir w dir) ;;
       when (negb isdir)
         (raise (PXEBootError ("Directory does not exist: " +:+ dir)))) ;;;
  o <- get_self ;;
  for_each [conf_node_dir o; conf_overlay_dir o]
    (fun dir =>
       when (negb (access dir (Z.lor R_OK W_OK)))
         (raise (PXEBootError
                   ("Don't have read/write permissions on: " +:+ dir)))).

(** [get_ip_list], the generator run to its end, as [extend] runs it:
    [get_node_list] is called first, then each node is converted. *)
Definition get_ip_list : M (list string) :=
  nodes <- get_node_list ;;
  lift (map_result (fun node => Codec.hex2ip (Py.basename node)) nodes).

(** [readdir], run to its end: the names of the entries it yields. *)
Definition readdir (path : string) (offset : Z) : M (list string) :=
  let dir_ents := ["."; ".."] in
  dir_ents <-
    (if String.eqb path "/" then
       let dir_ents := (dir_ents ++ ["by-ip"])%list in
       nodes <- get_node_list ;;
       ret (dir_ents ++ nodes)%list
     else if String.eqb path "/by-ip" then
       ips <- get_ip_list ;;
       ret (dir_ents ++ ips)%list
     else ret dir_ents) ;;
  ret dir_ents.

(** [fsinit]: [now] is what [time.time()] returns. *)
Definition fsinit (now : Q) : M unit := set_self (with_root_time now).

(** The attributes as [__init__] sets them before it loads anything; the
    empty string stands for [None]. *)
Definition fresh_self : self :=
  Self EmptyString EmptyString EmptyString EmptyString EmptyString
       0 100000 0.

(** [__init__], past [fuse.Fuse.__init__] *)
Definition init (c : config) : M unit :=
  set_self (fun _ => fresh_self) ;;;
  load_config c ;;;
  o <- get_self ;;
  load_template (conf_pxe_template o) ;;;
  set_self (with_root_time 0).

(** [k] calls of [get_next_fsid], one after the other *)
Fixpoint get_next_fsid_times (k : nat) : M (list Z) :=
  match k with
  | O => ret []
  | S k' =>
      fsid <- get_next_fsid ;;
      rest <- get_next_fsid_times k' ;;
      ret (fsid :: rest)
  end.

End Methods.

End PXE.

(** ** [get_next_fsid] under threads

    Requests can be served from several threads, and the interpreter can
    switch threads between any two statements.  A call is followed
    statement by statement, each statement taken as one step; the
    attribute [_next_fsid] is shared. *)

Module Threads.

(** Where a call stands: before [fsid = self._next_fsid]; before
    [self._next_fsid += 1]; before [return fsid]; returned. *)
Inductive call : Type :=
| AtAssign
| AtIncrement (fsid : Z)
| AtReturn (fsid : Z)
| Returned (fsid : Z).

(** One statement of one call, on the shared counter *)
Definition step (c : call) (counter : Z) : call * Z :=
  match c with
  | AtAssign => (AtIncrement counter, counter)
  | AtIncrement fsid => (AtReturn fsid, counter + 1)
  | AtReturn fsid => (Returned fsid, counter)
  | Returned fsid => (Returned fsid, counter)
  end.

(** A schedule names, statement after statement, the call that runs. *)
Fixpoint run (schedule : list nat) (calls : list call) (counter : Z)
  : list call * Z :=
  match schedule with
  | [] => (calls, counter)
  | i :: rest =>
      match calls !! i with
      | Some c =>
          let '(c', counter') := step c counter in
          run rest (<[i := c']> calls) counter'
      | None => run rest calls counter
      end
  end.

Definition returned (c : call) : option Z :=
  match c with Returned fsid => Some fsid | _ => None end.

(** The values the calls returned, when all of them have. *)
Definition results (calls : list call) : option (list Z) :=
  mapM returned calls.

(** Each call runs its three statements before the next one starts. *)
Definition serial (n : nat) : list nat :=
  flat_map (fun i => [i; i; i]) (seq 0 n).

End Threads.

(** ** The vocabulary of the specification *)

Module Spec.

Fixpoint all_chars (P : ascii -> bool) (s : string) : bool :=
  match s with
  | EmptyString => true
  | String c r => P c && all_chars P r
  end.

(** [0-9A-F] *)
Definition is_hex_upper (c : ascii) : bool :=
  let n := Py.code c in
  ((48 <=? n) && (n <=? 57)) || ((65 <=? n) && (n <=? 70)).

(** Exactly eight characters of [A-Z0-9] *)
Definition is_shape8 (s : string) : bool :=
  Nat.eqb (String.length s) 8 && all_chars Py.in_class s.

(** Exactly eight upper-case hexadecimal digits *)
Definition is_hex8 (s : string) : bool :=
  Nat.eqb (String.length s) 8 && all_chars is_hex_upper s.

Definition octets : list Z := map Z.of_nat (seq 0 256).

(** The decimal numeral of an octet, as [str] writes it *)
Definition is_octet (p : string) : bool :=
  existsb (fun n => String.eqb p (Py.str n)) octets.

(** Four such numerals separated by dots *)
Definition is_dotted_quad (s : string) : bool :=
  match Py.split "." s with
  | [a; b; c; d] => is_octet a && is_octet b && is_octet c && is_octet d
  | _ => false
  end.

(** The kinds of the namespace table *)
Inductive entity : Type := Directory | SymLink | NodeFile | NotFound.

(** The table as the specification words it: a node file is a top-level
    path, a slash and a name of the identifier shape. *)
Definition table_top_level (path : string) : entity :=
  if String.eqb path "/" || String.eqb path "/by-ip" then Directory
  else if String.prefix "/by-ip/" path then SymLink
  else match path with
       | String c name =>
           if Ascii.eqb c "/" && negb (Py.has_slash name)
              && Py.node_re_match name
           then NodeFile else NotFound
       | EmptyString => NotFound
       end.

(** The table with the node file recognised by its base name alone *)
Definition table_base_name (path : string) : entity :=
  if String.eqb path "/" || String.eqb path "/by-ip" then Directory
  else if String.prefix "/by-ip/" path then SymLink
  else if Py.node_re_match (Py.basename path) then NodeFile
  else NotFound.

(** What a [getattr] result says about the kind of the path *)
Definition attr_entity (a : PXE.attr) : entity :=
  match a with
  | PXE.AErr _ => NotFound
  | PXE.AStat st =>
      let fmt := Z.land (PXE.st_mode st) PXE.S_IFMT in
      if fmt =? PXE.S_IFDIR then Directory
      else if fmt =? PXE.S_IFLNK then SymLink
      else if fmt =? PXE.S_IFREG then NodeFile
      else NotFound
  end.

(** Directory [d] can be listed: it is a directory and the system does
    not refuse to read it. *)
Definition can_list (E : OS.env) (w : OS.world) (d : string) : bool :=
  OS.path_isdir w d
  && match OS.listdir_error E d with Some _ => false | None => true end.

(** An entry [get_node_list] can pass: a mount point, something that is
    not a directory, or a real directory without entries whose removal
    the system does not refuse, so that [os.rmdir] accepts it. *)
Definition orphan_ok (E : OS.env) (w : OS.world) (p : string) : bool :=
  if OS.path_ismount w p then true
  else if OS.path_isdir w p then
    match OS.fs w !! p, OS.entries_under w p, OS.rmdir_error E p with
    | Some OS.KDir, [], None => true
    | _, _, _ => false
    end
  else true.

(** Every entry of directory [d] is such an entry. *)
Definition orphans_removable (E : OS.env) (w : OS.world) (d : string) : bool :=
  forallb (orphan_ok E w) (OS.entries_under w d).

(** [os.path.exists(p) or os.mkdir(p)] when the system does not refuse *)
Definition ensure_dir (p : string) (m : gmap string OS.kind)
  : gmap string OS.kind :=
  match m !! p with
  | Some _ => m
  | None => <[p := OS.KDir]> m
  end.

(** The answer of the system to [os.path.exists(p) or os.mkdir(p)]:
    nothing is asked when [p] exists. *)
Definition refusal (E : OS.env) (m : gmap string OS.kind) (p : string)
  : option (Z * string) :=
  match m !! p with
  | Some _ => None
  | None => OS.mkdir_error E p
  end.

(** [setup_node] can create the directories it misses. *)
Definition can_mkdir (E : OS.env) (s : PXE.state) (node : string) : bool :=
  let m := OS.fs (PXE.os s) in
  let node_path := Py.path_join (PXE.conf_node_dir (PXE.obj s)) node in
  let overlay_path := Py.path_join (PXE.conf_overlay_dir (PXE.obj s)) node in
  match refusal E m node_path, refusal E (ensure_dir node_path m) overlay_path with
  | None, None => true
  | _, _ => false
  end.

(** What [load_template] leaves behind: a template with a marker and the
    size computed from it. *)
Definition template_loaded (s : PXE.state) : bool :=
  let o := PXE.obj s in
  negb (Py.find (PXE.pxe_template o) "<NODE>" =? -1)
  && (PXE.pxe_template_length o
      =? Py.len (PXE.pxe_template o) - Py.len "<NODE>" + 8).

(** [str.upper] on ASCII text *)
Definition upper_char (c : ascii) : ascii :=
  let n := Py.code c in
  if (97 <=? n) && (n <=? 122) then ascii_of_N (Z.to_N (n - 32)) else c.

Fixpoint upper (s : string) : string :=
  match s with
  | EmptyString => EmptyString
  | String c r => String (upper_char c) (upper r)
  end.

(** [0-9A-Fa-f] *)
Definition is_hex_any (c : ascii) : bool :=
  let n := Py.code c in
  ((48 <=? n) && (n <=? 57)) || ((65 <=? n) && (n <=? 70))
  || ((97 <=? n) && (n <=? 102)).

(** The mount points among the entries of the node directory *)
Definition mounted_nodes (s : PXE.state) : list string :=
  List.filter
    (fun n => OS.path_ismount (PXE.os s)
                (Py.path_join (PXE.conf_node_dir (PXE.obj s)) n))
    (map Py.basename
       (OS.entries_under (PXE.os s) (PXE.conf_node_dir (PXE.obj s)))).

End Spec.

(** ** Definitions used by the proofs *)

#[global] Instance exn_eq_dec : EqDecision exn.
Proof. solve_decision. Defined.

#[global] Instance result_eq_dec {A} `{EqDecision A} : EqDecision (result A).
Proof. solve_decision. Defined.

Fixpoint has_char (c : ascii) (s : string) : bool :=
  match s with
  | EmptyString => false
  | String d r => Ascii.eqb d c || has_char c r
  end.

(** The lambdas of [hex2ip] and [ip2hex] *)
Definition decode_group (x : string) : result string :=
  v ← Py.int x 16; Ok (Py.str v).

Definition encode_segment (x : string) : result string :=
  v ← Py.int x 10; Ok (Py.fmt_02X v).

Definition group (a b : ascii) : string := String a (String b EmptyString).

Definition str8 (c1 c2 c3 c4 c5 c6 c7 c8 : ascii) : string :=
  String c1 (String c2 (String c3 (String c4
    (String c5 (String c6 (String c7 (String c8 EmptyString))))))).

(** The finite checks behind the codec lemmas: every octet, and every
    pair of characters of the class [A-Z0-9]. *)
Definition all_ascii : list ascii := map ascii_of_nat (seq 0 256).
Definition class_chars : list ascii := List.filter Py.in_class all_ascii.

Definition octet_ok (n : Z) : bool :=
  match Py.int (Py.str n) 10, Py.fmt_02X n with
  | Ok v, String a (String b EmptyString) =>
      (v =? n) && negb (has_char "." (Py.str n))
      && Spec.is_hex_upper a && Spec.is_hex_upper b
      && bool_decide (Py.int (String a (String b EmptyString)) 16 = Ok n)
  | _, _ => false
  end.

Definition pair_ok (a b : ascii) : bool :=
  let h := String a (String b EmptyString) in
  match Py.int h 16 with
  | Ok v =>
      Spec.is_hex_upper a && Spec.is_hex_upper b
      && String.eqb (Py.fmt_02X v) h
      && bool_decide (Py.int (Py.str v) 10 = Ok v)
      && negb (has_char "." (Py.str v))
  | Raise e =>
      negb (Spec.is_hex_upper a && Spec.is_hex_upper b)
      && bool_decide (e = ValueError 16 h)
  end.

Definition hex_any_chars : list ascii := List.filter Spec.is_hex_any all_ascii.

Definition any_case_pair_ok (a b : ascii) : bool :=
  let h := String a (String b EmptyString) in
  match Py.int h 16 with
  | Ok v =>
      String.eqb (Py.fmt_02X v) (Spec.upper h)
      && bool_decide (Py.int (Py.str v) 10 = Ok v)
      && negb (has_char "." (Py.str v))
      && negb (Py.has_slash (Py.str v))
      && existsb (Z.eqb v) Spec.octets
  | Raise _ => false
  end.

(** ** Concrete systems, for the examples *)

Module Fixture.

Definition perm_denied (p : string) : option (Z * string) :=
  Some (13, "[Errno 13] Permission denied: '" +:+ p +:+ "'").

(** Commands succeed; [mount] makes its last word a mount point. *)
Definition commands_work (cmd : string) (m : gmap string OS.kind)
  : Z * gmap string OS.kind :=
  if String.prefix "mount " cmd
  then (0, <[List.last (Py.split " " cmd) EmptyString := OS.KMount]> m)
  else (0, m).

(** Commands exit with code 1, which [os.system] reports as 256. *)
Definition commands_fail (cmd : string) (m : gmap string OS.kind)
  : Z * gmap string OS.kind := (256, m).

Definition template : string := "nfsroot=/srv/nodes/<NODE> rw".

Definition template_file (text : string) (p : string) : option string :=
  if String.eqb p "/etc/pxebootfs/pxe.tmpl" then Some text else None.

(** Nothing is refused. *)
Definition no_error (p : string) : option (Z * string) := None.

Definition env_ok : OS.env :=
  OS.Env no_error no_error no_error commands_work (template_file template) 0 0.
Definition env_commands_fail : OS.env :=
  OS.Env no_error no_error no_error commands_fail (template_file template) 0 0.
(** The directories can be read, and nothing in them created or removed. *)
Definition env_read_only : OS.env :=
  OS.Env perm_denied perm_denied no_error commands_work
         (template_file template) 0 0.
Definition env_no_marker : OS.env :=
  OS.Env no_error no_error no_error commands_work
         (template_file "nfsroot=/srv/nodes/node rw") 0 0.
(** The node directory cannot be read. *)
Definition env_unreadable : OS.env :=
  OS.Env no_error no_error perm_denied commands_work
         (template_file template) 0 0.

Definition options : PXE.config :=
  PXE.Config "/etc/pxebootfs/pxe.tmpl" "/srv/nodes" "/srv/root"
             "/srv/overlay" "100000".

Definition object : PXE.self :=
  PXE.Self "/srv/root" "/srv/nodes" "/srv/overlay" "/etc/pxebootfs/pxe.tmpl"
           template 30 100000 0.

Definition empty_state : PXE.state := PXE.State object (OS.World ∅ []).

(** A node directory with a mounted node, a left-over empty directory
    and a plain file. *)
Definition tidy_state : PXE.state :=
  PXE.State object
    (OS.World (list_to_map [("/srv/nodes", OS.KDir);
                            ("/srv/overlay", OS.KDir);
                            ("/srv/nodes/0A0B0C0D", OS.KMount);
                            ("/srv/nodes/AABBCCDD", OS.KDir);
                            ("/srv/nodes/README", OS.KFile);
                            ("/srv/overlay/0A0B0C0D", OS.KDir)]) []).

(** The same with a left-over directory that is not empty. *)
Definition untidy_state : PXE.state :=
  PXE.State object
    (OS.World (list_to_map [("/srv/nodes", OS.KDir);
                            ("/srv/overlay", OS.KDir);
                            ("/srv/nodes/0A0B0C0D", OS.KMount);
                            ("/srv/nodes/C0A80101", OS.KDir);
                            ("/srv/nodes/C0A80101/lost+found", OS.KDir);
                            ("/srv/overlay/0A0B0C0D", OS.KDir)]) []).

(** Every directory can be read and written. *)
Definition access_all (p : string) (mode : Z) : bool := true.

(** The overlay directory is read-only. *)
Definition access_overlay_ro (p : string) (mode : Z) : bool :=
  negb (String.eqb p "/srv/overlay").

(** The three configured directories exist. *)
Definition started_state : PXE.state :=
  PXE.State object
    (OS.World (list_to_map [("/srv/nodes", OS.KDir);
                            ("/srv/root", OS.KDir);
                            ("/srv/overlay", OS.KDir)]) []).

(** A node directory with two mounted nodes, and one mount point whose
    name is no identifier. *)
Definition two_nodes_state : PXE.state :=
  PXE.State object
    (OS.World (list_to_map [("/srv/nodes", OS.KDir);
                            ("/srv/nodes/0A0B0C0D", OS.KMount);
                            ("/srv/nodes/C0A80101", OS.KMount)]) []).

Definition stray_mount_state : PXE.state :=
  PXE.State object
    (OS.World (list_to_map [("/srv/nodes", OS.KDir);
                            ("/srv/nodes/0A0B0C0D", OS.KMount);
                            ("/srv/nodes/tmp", OS.KMount)]) []).

End Fixture.


(** * Lemmas and theorems *)

(** *** Strings *)

Lemma length_app (a b : string) :
  String.length (a +:+ b) = (String.length a + String.length b)%nat.
Proof. induction a as [|c a IH]; simpl; [reflexivity | now rewrite IH]. Qed.

Lemma prefix_length (a s : string) :
  String.prefix a s = true -> (String.length a <= String.length s)%nat.
Proof.
  revert s. induction a as [|c a IH]; intros s H; simpl; [lia|].
  destruct s as [|d s]; simpl in H; [discriminate|].
  destruct (ascii_dec c d); [|discriminate]. apply IH in H. simpl. lia.
Qed.

(** *** [split] and [join] *)

Lemma split_nonempty sep s : Py.split sep s <> [].
Proof.
  destruct s as [|c r]; simpl; [discriminate|].
  destruct (Ascii.eqb c sep); [discriminate|].
  destruct (Py.split sep r); discriminate.
Qed.

Lemma join_split sep s : Py.join (String sep EmptyString) (Py.split sep s) = s.
Proof.
  induction s as [|c r IH]; simpl; [reflexivity|].
  destruct (Ascii.eqb_spec c sep) as [->|Hne].
  - pose proof (split_nonempty sep r) as Hn.
    destruct (Py.split sep r) as [|h t] eqn:Hs; [congruence|].
    simpl in *. now rewrite IH.
  - pose proof (split_nonempty sep r) as Hn.
    destruct (Py.split sep r) as [|h t] eqn:Hs; [congruence|].
    destruct t as [|h' t]; simpl in *; now rewrite <- IH.
Qed.

Lemma split_app_sep sep p r :
  has_char sep p = false ->
  Py.split sep (p +:+ String sep r) = p :: Py.split sep r.
Proof.
  induction p as [|c p IH]; simpl; intros H.
  - now rewrite Ascii.eqb_refl.
  - apply orb_false_iff in H as [Hc Hp]. rewrite Hc, (IH Hp). reflexivity.
Qed.

Lemma split_no_sep sep p : has_char sep p = false -> Py.split sep p = [p].
Proof.
  induction p as [|c p IH]; simpl; intros H; [reflexivity|].
  apply orb_false_iff in H as [Hc Hp]. now rewrite Hc, (IH Hp).
Qed.

Lemma split_join sep parts :
  parts <> [] -> Forall (fun p => has_char sep p = false) parts ->
  Py.split sep (Py.join (String sep EmptyString) parts) = parts.
Proof.
  induction parts as [|p rest IH]; intros Hn Hall; [congruence|].
  inversion Hall as [|? ? Hp Hrest]; subst.
  destruct rest as [|q rest].
  - simpl. now apply split_no_sep.
  - change (Py.join (String sep EmptyString) (p :: q :: rest))
      with (p +:+ String sep (Py.join (String sep EmptyString) (q :: rest))).
    rewrite split_app_sep by assumption. f_equal. apply IH; [discriminate|assumption].
Qed.

(** *** Characters and octets, by enumeration *)

Lemma in_all_ascii c : In c all_ascii.
Proof.
  unfold all_ascii. apply in_map_iff. exists (nat_of_ascii c). split.
  - apply ascii_nat_embedding.
  - apply in_seq. pose proof (nat_ascii_bounded c). lia.
Qed.

Lemma in_class_chars c : Py.in_class c = true -> In c class_chars.
Proof. intros H. apply filter_In. split; [apply in_all_ascii | exact H]. Qed.

Lemma octets_checked : forallb octet_ok Spec.octets = true.
Proof. vm_compute. reflexivity. Qed.

Lemma pairs_checked :
  forallb (fun a => forallb (pair_ok a) class_chars) class_chars = true.
Proof. vm_compute. reflexivity. Qed.

Lemma octet_facts n :
  In n Spec.octets ->
  Py.int (Py.str n) 10 = Ok n
  /\ has_char "." (Py.str n) = false
  /\ exists a b, Py.fmt_02X n = String a (String b EmptyString)
       /\ Py.int (String a (String b EmptyString)) 16 = Ok n.
Proof.
  intros Hin. pose proof octets_checked as Hall.
  rewrite forallb_forall in Hall. specialize (Hall n Hin).
  unfold octet_ok in Hall.
  destruct (Py.int (Py.str n) 10) as [v|]; [|discriminate].
  destruct (Py.fmt_02X n) as [|a [|b [|]]]; try discriminate.
  repeat (apply andb_true_iff in Hall as [Hall ?]).
  apply Z.eqb_eq in Hall. subst v.
  repeat split.
  - now apply negb_true_iff.
  - exists a, b. split; [reflexivity|].
    match goal with Hd : bool_decide _ = true |- _ =>
      now apply bool_decide_eq_true in Hd end.
Qed.

Lemma pair_facts a b :
  Py.in_class a = true -> Py.in_class b = true ->
  pair_ok a b = true.
Proof.
  intros Ha Hb. pose proof pairs_checked as Hall.
  rewrite forallb_forall in Hall.
  specialize (Hall a (in_class_chars a Ha)).
  rewrite forallb_forall in Hall. exact (Hall b (in_class_chars b Hb)).
Qed.

Lemma hex_in_class c : Spec.is_hex_upper c = true -> Py.in_class c = true.
Proof.
  unfold Spec.is_hex_upper, Py.in_class. intros H.
  apply orb_true_iff in H as [H|H]; apply andb_true_iff in H as [H1 H2];
    apply orb_true_iff; [right|left]; apply andb_true_iff; split; lia.
Qed.

(** A two-digit group decodes, and its value prints back to it. *)
Lemma hex_pair a b :
  Spec.is_hex_upper a = true -> Spec.is_hex_upper b = true ->
  exists v, Py.int (String a (String b EmptyString)) 16 = Ok v
    /\ Py.fmt_02X v = String a (String b EmptyString)
    /\ Py.int (Py.str v) 10 = Ok v
    /\ has_char "." (Py.str v) = false.
Proof.
  intros Ha Hb.
  pose proof (pair_facts a b (hex_in_class a Ha) (hex_in_class b Hb)) as H.
  unfold pair_ok in H.
  destruct (Py.int (String a (String b EmptyString)) 16) as [v|e].
  - exists v. repeat (apply andb_true_iff in H as [H ?]).
    repeat split; try reflexivity.
    + now apply String.eqb_eq.
    + match goal with Hd : bool_decide _ = true |- _ =>
        now apply bool_decide_eq_true in Hd end.
    + now apply negb_true_iff.
  - rewrite Ha, Hb in H. discriminate.
Qed.

(** A group of the class with a letter past [F] is refused. *)
Lemma non_hex_pair a b :
  Py.in_class a = true -> Py.in_class b = true ->
  Spec.is_hex_upper a && Spec.is_hex_upper b = false ->
  Py.int (String a (String b EmptyString)) 16
  = Raise (ValueError 16 (String a (String b EmptyString))).
Proof.
  intros Ha Hb Hn. pose proof (pair_facts a b Ha Hb) as H.
  unfold pair_ok in H.
  destruct (Py.int (String a (String b EmptyString)) 16) as [v|e].
  - rewrite Hn in H. discriminate.
  - apply andb_true_iff in H as [_ H]. apply bool_decide_eq_true in H.
    now subst e.
Qed.

(** *** The codec on eight characters *)

Lemma length8 s :
  String.length s = 8%nat ->
  exists c1 c2 c3 c4 c5 c6 c7 c8, s = str8 c1 c2 c3 c4 c5 c6 c7 c8.
Proof.
  intros H. do 8 (destruct s as [|? s]; [discriminate|]).
  destruct s; [|discriminate]. do 8 eexists. reflexivity.
Qed.

Lemma hex2ip_groups c1 c2 c3 c4 c5 c6 c7 c8 :
  Codec.hex2ip (str8 c1 c2 c3 c4 c5 c6 c7 c8)
  = (parts ← map_result decode_group
               [group c1 c2; group c3 c4; group c5 c6; group c7 c8];
     Ok (Py.join "." parts)).
Proof. reflexivity. Qed.

Lemma decode_group_hex a b :
  Spec.is_hex_upper a = true -> Spec.is_hex_upper b = true ->
  exists v, decode_group (group a b) = Ok (Py.str v)
    /\ encode_segment (Py.str v) = Ok (group a b)
    /\ has_char "." (Py.str v) = false.
Proof.
  intros Ha Hb. destruct (hex_pair a b Ha Hb) as (v & Hv & Hf & Hi & Hd).
  exists v. unfold decode_group, encode_segment, group.
  rewrite Hv, Hi. cbn. rewrite Hf. auto.
Qed.

Lemma encode_segment_octet n :
  In n Spec.octets ->
  exists a b, encode_segment (Py.str n) = Ok (group a b)
    /\ decode_group (group a b) = Ok (Py.str n).
Proof.
  intros Hin. destruct (octet_facts n Hin) as (Hi & _ & a & b & Hf & Hd).
  exists a, b. unfold encode_segment, decode_group, group.
  rewrite Hi, Hd. cbn. rewrite Hf. auto.
Qed.

Lemma is_octet_str p :
  Spec.is_octet p = true -> exists n, In n Spec.octets /\ p = Py.str n.
Proof.
  unfold Spec.is_octet. intros H. apply existsb_exists in H as (n & Hin & He).
  exists n. split; [assumption | now apply String.eqb_eq].
Qed.

Lemma hex8_chars s :
  Spec.is_hex8 s = true ->
  exists c1 c2 c3 c4 c5 c6 c7 c8,
    s = str8 c1 c2 c3 c4 c5 c6 c7 c8
    /\ Forall (fun c => Spec.is_hex_upper c = true) [c1; c2; c3; c4; c5; c6; c7; c8].
Proof.
  unfold Spec.is_hex8. intros H. apply andb_true_iff in H as [Hl Hc].
  apply Nat.eqb_eq in Hl.
  destruct (length8 s Hl) as (c1 & c2 & c3 & c4 & c5 & c6 & c7 & c8 & ->).
  exists c1, c2, c3, c4, c5, c6, c7, c8. split; [reflexivity|].
  cbn in Hc. repeat (apply andb_true_iff in Hc as [? Hc]).
  repeat constructor; assumption.
Qed.

Lemma hex2ip_of_hex8 s :
  Spec.is_hex8 s = true ->
  exists a, Codec.hex2ip s = Ok a /\ Codec.ip2hex a = Ok s.
Proof.
  intros H.
  destruct (hex8_chars s H) as (c1 & c2 & c3 & c4 & c5 & c6 & c7 & c8 & -> & Hall).
  repeat match goal with Hf : Forall _ (_ :: _) |- _ =>
    inversion Hf; subst; clear Hf end.
  destruct (decode_group_hex c1 c2) as (v1 & D1 & E1 & N1); [assumption..|].
  destruct (decode_group_hex c3 c4) as (v2 & D2 & E2 & N2); [assumption..|].
  destruct (decode_group_hex c5 c6) as (v3 & D3 & E3 & N3); [assumption..|].
  destruct (decode_group_hex c7 c8) as (v4 & D4 & E4 & N4); [assumption..|].
  exists (Py.join "." [Py.str v1; Py.str v2; Py.str v3; Py.str v4]). split.
  - rewrite hex2ip_groups. cbn [map_result]. rewrite D1, D2, D3, D4. reflexivity.
  - unfold Codec.ip2hex.
    rewrite (split_join "." [Py.str v1; Py.str v2; Py.str v3; Py.str v4]);
      [| discriminate | repeat constructor; assumption].
    fold encode_segment. cbn [map_result]. rewrite E1, E2, E3, E4. reflexivity.
Qed.

Lemma ip2hex_of_dotted_quad a :
  Spec.is_dotted_quad a = true ->
  exists s, Codec.ip2hex a = Ok s /\ Codec.hex2ip s = Ok a.
Proof.
  unfold Spec.is_dotted_quad. intros H.
  pose proof (join_split "." a) as Hj.
  destruct (Py.split "." a) as [|p1 [|p2 [|p3 [|p4 [|]]]]] eqn:Hs; try discriminate.
  repeat (apply andb_true_iff in H as [H ?]).
  destruct (is_octet_str p1) as (n1 & I1 & ->); [assumption|].
  destruct (is_octet_str p2) as (n2 & I2 & ->); [assumption|].
  destruct (is_octet_str p3) as (n3 & I3 & ->); [assumption|].
  destruct (is_octet_str p4) as (n4 & I4 & ->); [assumption|].
  destruct (encode_segment_octet n1 I1) as (a1 & b1 & E1 & D1).
  destruct (encode_segment_octet n2 I2) as (a2 & b2 & E2 & D2).
  destruct (encode_segment_octet n3 I3) as (a3 & b3 & E3 & D3).
  destruct (encode_segment_octet n4 I4) as (a4 & b4 & E4 & D4).
  exists (str8 a1 b1 a2 b2 a3 b3 a4 b4). split.
  - unfold Codec.ip2hex. rewrite Hs. fold encode_segment. cbn [map_result].
    rewrite E1, E2, E3, E4. reflexivity.
  - rewrite hex2ip_groups. cbn [map_result]. rewrite D1, D2, D3, D4.
    cbn [mbind result_bind]. f_equal. exact Hj.
Qed.

(** ** Theorems on the codec *)

Example hex2ip_doc : Codec.hex2ip "C0A80101" = Ok "192.168.1.1".
Proof. reflexivity. Qed.

Example ip2hex_doc : Codec.ip2hex "192.168.1.1" = Ok "C0A80101".
Proof. reflexivity. Qed.

(** C2 (amended). For every dotted quad [a] (four decimal numerals of
    octets 0-255, as [str] writes them, separated by dots)
    [hex2ip(ip2hex(a)) == a]; and for every string [s] of eight upper-case
    hexadecimal digits [ip2hex(hex2ip(s)) == s]. *)
Theorem codec_round_trip a s :
  Spec.is_dotted_quad a = true -> Spec.is_hex8 s = true ->
  (Codec.ip2hex a ≫= Codec.hex2ip) = Ok a
  /\ (Codec.hex2ip s ≫= Codec.ip2hex) = Ok s.
Proof.
  intros Ha Hs. split.
  - destruct (ip2hex_of_dotted_quad a Ha) as (h & -> & Hh). exact Hh.
  - destruct (hex2ip_of_hex8 s Hs) as (q & -> & Hq). exact Hq.
Qed.

Lemma codec_round_trip_witness :
  (Codec.ip2hex "192.168.1.1" ≫= Codec.hex2ip) = Ok "192.168.1.1"
  /\ (Codec.hex2ip "C0A80101" ≫= Codec.ip2hex) = Ok "C0A80101".
Proof.
  apply (codec_round_trip "192.168.1.1" "C0A80101"); reflexivity.
Defined.

(** C2, as stated, fails on the second half: ["GGGGGGGG"] matches
    [[A-Z0-9]{8}] and [hex2ip] raises on it, so there is nothing to encode
    back. *)
Lemma codec_round_trip_counterexample :
  Spec.is_shape8 "GGGGGGGG" = true
  /\ Codec.hex2ip "GGGGGGGG" = Raise (ValueError 16 "GG")
  /\ ~ (forall s, Spec.is_shape8 s = true ->
                  (Codec.hex2ip s ≫= Codec.ip2hex) = Ok s).
Proof.
  split; [reflexivity|]. split; [reflexivity|].
  intros H. specialize (H "GGGGGGGG" eq_refl). discriminate H.
Qed.

(** ** Methods, statement by statement *)

Import PXE.

Ltac run_method :=
  cbv beta iota zeta delta
    [bind ret raise lift when get_self set_self ask_os do_os os_system
     OS.system OS.mkdir obj os].

Lemma path_ismount_ensure p q m t :
  OS.path_ismount (OS.World (Spec.ensure_dir q m) t) p
  = OS.path_ismount (OS.World m t) p.
Proof.
  unfold OS.path_ismount, Spec.ensure_dir. simpl.
  destruct (m !! q) eqn:Hq; [reflexivity|].
  destruct (decide (p = q)) as [->|Hne].
  - now rewrite lookup_insert_eq, Hq.
  - now rewrite lookup_insert_ne by congruence.
Qed.

Lemma bind_ok {A B} (m : M A) (k : A -> M B) s a s' :
  m s = (Ok a, s') -> bind m k s = k a s'.
Proof. intros H. unfold bind. now rewrite H. Qed.

Lemma bind_raise {A B} (m : M A) (k : A -> M B) s e s' :
  m s = (Raise e, s') -> bind m k s = (Raise e, s').
Proof. intros H. unfold bind. now rewrite H. Qed.

(** [if not os.path.exists(p): os.mkdir(p)] *)
Lemma mkdir_if_absent E p o w :
  (ex <- ask_os (fun w => OS.path_exists w p) ;;
   when (negb ex) (do_os (OS.mkdir E p))) (State o w)
  = match Spec.refusal E (OS.fs w) p with
    | Some (errno, text) => (Raise (OSError errno text), State o w)
    | None =>
        (Ok tt, State o (OS.World (Spec.ensure_dir p (OS.fs w)) (OS.trace w)))
    end.
Proof.
  run_method. unfold Spec.refusal, Spec.ensure_dir, OS.path_exists.
  destruct w as [m t]. simpl.
  destruct (m !! p) eqn:Hp; simpl; [reflexivity|].
  unfold OS.path_exists. simpl. rewrite Hp.
  destruct (OS.mkdir_error E p) as [[errno text]|]; reflexivity.
Qed.

(** [if not os.path.ismount(p): os.system(cmd)] *)
Lemma mount_if_needed E p cmd o w :
  (ismount <- ask_os (fun w => OS.path_ismount w p) ;;
   when (negb ismount) (os_system E cmd ;;; ret tt)) (State o w)
  = (Ok tt,
     State o (if OS.path_ismount w p then w
              else OS.World (snd (OS.run_command E cmd (OS.fs w)))
                            (OS.trace w ++ [cmd]))).
Proof.
  run_method. destruct (OS.path_ismount w p); simpl; [reflexivity|].
  destruct (OS.run_command E cmd (OS.fs w)); reflexivity.
Qed.

Lemma get_next_fsid_run o w :
  get_next_fsid (State o w)
  = (Ok (_next_fsid o), State (with_next_fsid (_next_fsid o + 1) o) w).
Proof. reflexivity. Qed.

Lemma os_system_run E cmd o w :
  os_system E cmd (State o w)
  = (Ok (fst (OS.run_command E cmd (OS.fs w))),
     State o (OS.World (snd (OS.run_command E cmd (OS.fs w)))
                       (OS.trace w ++ [cmd]))).
Proof.
  run_method. destruct (OS.run_command E cmd (OS.fs w)); reflexivity.
Qed.

Section SetupNode.
Context (E : OS.env) (s : state) (node : string).
Let o := obj s.
Let w := os s.
Let node_path := Py.path_join (conf_node_dir o) node.
Let overlay_path := Py.path_join (conf_overlay_dir o) node.
Let dirs := Spec.ensure_dir overlay_path (Spec.ensure_dir node_path (OS.fs w)).
Let mount := mount_command (conf_root_dir o) overlay_path node_path.
Let mounted := OS.path_ismount w node_path.
Let after_mount := if mounted then dirs else snd (OS.run_command E mount dirs).
Let mount_trace := if mounted then [] else [mount].

(** [setup_node], statement by statement *)
Lemma setup_node_run :
  setup_node E node s
  = match Spec.refusal E (OS.fs w) node_path with
    | Some (errno, text) => (Raise (OSError errno text), s)
    | None =>
        match Spec.refusal E (Spec.ensure_dir node_path (OS.fs w)) overlay_path with
        | Some (errno, text) =>
            (Raise (OSError errno text),
             State o (OS.World (Spec.ensure_dir node_path (OS.fs w)) (OS.trace w)))
        | None =>
            match Codec.hex2ip node with
            | Ok ip =>
                let export :=
                  export_command node_path (Py.str (_next_fsid o)) ip in
                (Ok node,
                 State (with_next_fsid (_next_fsid o + 1) o)
                       (OS.World (snd (OS.run_command E export after_mount))
                                 (OS.trace w ++ mount_trace ++ [export])))
            | Raise e =>
                (Raise e,
                 State (with_next_fsid (_next_fsid o + 1) o)
                       (OS.World after_mount (OS.trace w ++ mount_trace)))
            end
        end
    end.
Proof.
  unfold setup_node.
  rewrite (bind_ok _ _ s o s) by reflexivity. fold o node_path overlay_path.
  destruct s as [o' w']. simpl in o, w. subst w.
  pose proof (mkdir_if_absent E node_path o' w') as H1.
  destruct (Spec.refusal E (OS.fs w') node_path) as [[errno text]|].
  { now rewrite (bind_raise _ _ _ _ _ H1). }
  rewrite (bind_ok _ _ _ _ _ H1). clear H1.
  match goal with |- context [State o' ?w1] =>
    pose proof (mkdir_if_absent E overlay_path o' w1) as H2 end.
  cbn [OS.fs OS.trace] in H2.
  destruct (Spec.refusal E (Spec.ensure_dir node_path (OS.fs w')) overlay_path)
    as [[errno text]|].
  { now rewrite (bind_raise _ _ _ _ _ H2). }
  rewrite (bind_ok _ _ _ _ _ H2). clear H2. fold dirs.
  rewrite (bind_ok _ _ _ _ _ (mount_if_needed E node_path mount o' _)).
  rewrite (bind_ok _ _ _ _ _ (get_next_fsid_run _ _)).
  assert (Hm : OS.path_ismount (OS.World dirs (OS.trace w')) node_path = mounted).
  { subst dirs mounted. rewrite !path_ismount_ensure. now destruct w'. }
  rewrite Hm. subst after_mount mount_trace.
  destruct (Codec.hex2ip node) as [ip|e].
  - rewrite (bind_ok _ _ _ ip _) by reflexivity.
    match goal with |- context [os_system E ?c] =>
      match goal with |- bind _ _ ?st = _ =>
        destruct st as [o2 w2] eqn:Hst;
        rewrite (bind_ok _ _ _ _ _ (os_system_run E c o2 w2)) end end.
    unfold ret. destruct mounted; inversion Hst; subst; cbn [OS.fs OS.trace];
      rewrite <- ?app_assoc; reflexivity.
  - rewrite (bind_raise _ _ _ e _) by reflexivity.
    destruct mounted; rewrite ?app_nil_r; reflexivity.
Qed.

End SetupNode.

(** *** Slices *)

Lemma substring_empty a b : substring a b EmptyString = EmptyString.
Proof. destruct a, b; reflexivity. Qed.

Lemma substring_clip a b s :
  substring a b s
  = substring (Nat.min a (String.length s))
              (Nat.min b (String.length s - Nat.min a (String.length s))) s.
Proof.
  revert a b. induction s as [|c r IH]; intros a b.
  - now rewrite !substring_empty.
  - destruct a as [|a'].
    + destruct b as [|b']; [reflexivity|].
      cbn [String.length Nat.min Nat.sub substring]. f_equal.
      rewrite (IH 0%nat b'). cbn [Nat.min]. now rewrite Nat.sub_0_r.
    + cbn [String.length Nat.min Nat.sub substring]. apply IH.
Qed.

Lemma substring_past a b s :
  (String.length s <= a)%nat -> substring a b s = EmptyString.
Proof.
  revert a b. induction s as [|c r IH]; intros a b H.
  - apply substring_empty.
  - destruct a as [|a']; simpl in *; [lia|]. apply IH. lia.
Qed.

(** [s[i:i+n]] for indices that are not negative *)
Lemma slice_window s i n :
  0 <= i -> 0 <= n ->
  Py.slice s i (i + n) = substring (Z.to_nat i) (Z.to_nat n) s.
Proof.
  intros Hi Hn. unfold Py.slice, Py.clamp, Py.len.
  destruct (Z.ltb_spec i 0); [lia|]. destruct (Z.ltb_spec (i + n) 0); [lia|].
  rewrite (substring_clip (Z.to_nat i) (Z.to_nat n) s). f_equal; lia.
Qed.

Lemma read_run E path length offset s :
  Py.node_re_match (Py.basename path) = true ->
  read E path length offset s
  = match setup_node E (Py.basename path) s with
    | (Ok _, s') =>
        (Ok (Py.slice (Py.replace (pxe_template (obj s')) "<NODE>"
                                  (Py.basename path))
                      offset (offset + length)), s')
    | (Raise (OSError _ text), s') => (Ok text, s')
    | (Raise e, s') => (Raise e, s')
    end.
Proof.
  intros Hm. unfold read. rewrite Hm.
  unfold bind at 1. unfold try_except_OSError. unfold bind at 1.
  destruct (setup_node E (Py.basename path) s) as [[a|e] s']; [reflexivity|].
  destruct e; reflexivity.
Qed.

(** *** Shapes *)

Lemma shape8_chars s :
  Spec.is_shape8 s = true ->
  exists c1 c2 c3 c4 c5 c6 c7 c8,
    s = str8 c1 c2 c3 c4 c5 c6 c7 c8
    /\ Forall (fun c => Py.in_class c = true) [c1; c2; c3; c4; c5; c6; c7; c8].
Proof.
  unfold Spec.is_shape8. intros H. apply andb_true_iff in H as [Hl Hc].
  apply Nat.eqb_eq in Hl.
  destruct (length8 s Hl) as (c1 & c2 & c3 & c4 & c5 & c6 & c7 & c8 & ->).
  exists c1, c2, c3, c4, c5, c6, c7, c8. split; [reflexivity|].
  cbn in Hc. repeat (apply andb_true_iff in Hc as [? Hc]).
  repeat constructor; assumption.
Qed.

Lemma shape8_matches s : Spec.is_shape8 s = true -> Py.node_re_match s = true.
Proof.
  intros H.
  destruct (shape8_chars s H) as (c1 & c2 & c3 & c4 & c5 & c6 & c7 & c8 & -> & Hall).
  repeat match goal with Hf : Forall _ (_ :: _) |- _ =>
    inversion Hf; subst; clear Hf end.
  unfold Py.node_re_match, str8. cbn [Py.match_class].
  repeat match goal with Hc : Py.in_class _ = true |- _ => rewrite Hc; clear Hc end.
  reflexivity.
Qed.

Lemma hex8_shape8 s : Spec.is_hex8 s = true -> Spec.is_shape8 s = true.
Proof.
  unfold Spec.is_hex8, Spec.is_shape8. intros H.
  apply andb_true_iff in H as [Hl Hc]. rewrite Hl. simpl. clear Hl.
  induction s as [|c r IH]; [reflexivity|]. simpl in *.
  apply andb_true_iff in Hc as [Hc Hr]. now rewrite (hex_in_class c Hc), IH.
Qed.

Lemma hex8_matches s : Spec.is_hex8 s = true -> Py.node_re_match s = true.
Proof. intros H. now apply shape8_matches, hex8_shape8. Qed.

Lemma decode_group_class a b :
  Py.in_class a = true -> Py.in_class b = true ->
  (Spec.is_hex_upper a && Spec.is_hex_upper b = true
   /\ exists v, decode_group (group a b) = Ok (Py.str v))
  \/ (Spec.is_hex_upper a && Spec.is_hex_upper b = false
      /\ decode_group (group a b) = Raise (ValueError 16 (group a b))).
Proof.
  intros Ha Hb.
  destruct (Spec.is_hex_upper a && Spec.is_hex_upper b) eqn:Hh.
  - left. split; [reflexivity|]. apply andb_true_iff in Hh as [H1 H2].
    destruct (decode_group_hex a b H1 H2) as (v & Hv & _). eauto.
  - right. split; [reflexivity|]. unfold decode_group, group.
    now rewrite (non_hex_pair a b Ha Hb Hh).
Qed.

(** A name of the shape with a letter past [F] makes [hex2ip] raise. *)
Lemma hex2ip_not_hex s :
  Spec.is_shape8 s = true -> Spec.is_hex8 s = false ->
  exists lit, Codec.hex2ip s = Raise (ValueError 16 lit).
Proof.
  intros H Hn.
  destruct (shape8_chars s H) as (c1 & c2 & c3 & c4 & c5 & c6 & c7 & c8 & -> & Hall).
  repeat match goal with Hf : Forall _ (_ :: _) |- _ =>
    inversion Hf; subst; clear Hf end.
  rewrite hex2ip_groups. cbn [map_result].
  destruct (decode_group_class c1 c2) as [[G1 [v1 ->]]|[_ ->]]; [assumption..| |eauto].
  destruct (decode_group_class c3 c4) as [[G2 [v2 ->]]|[_ ->]]; [assumption..| |eauto].
  destruct (decode_group_class c5 c6) as [[G3 [v3 ->]]|[_ ->]]; [assumption..| |eauto].
  destruct (decode_group_class c7 c8) as [[G4 [v4 ->]]|[_ ->]]; [assumption..| |eauto].
  exfalso. apply andb_true_iff in G1 as [? ?], G2 as [? ?], G3 as [? ?], G4 as [? ?].
  unfold Spec.is_hex8, str8, group in Hn. cbn in Hn.
  repeat match goal with Hc : Spec.is_hex_upper _ = true |- _ =>
    rewrite Hc in Hn; clear Hc end.
  discriminate.
Qed.

(** *** [replace], [count] and [find] *)

Lemma count_go_nonneg sub skip s : 0 <= Py.count_go sub skip s.
Proof.
  revert skip. induction s as [|c r IH]; intros skip; cbn [Py.count_go].
  - destruct sub; lia.
  - destruct skip; [|apply IH].
    destruct (String.prefix sub (String c r)); [|apply IH].
    destruct sub; [specialize (IH 0%nat) | specialize (IH (String.length sub))]; lia.
Qed.

(** Each rewritten occurrence changes the length by the difference of the
    lengths of [new] and [old]. *)
Lemma replace_go_length c0 o new skip s :
  (skip <= String.length s)%nat ->
  Py.len (Py.replace_go (String c0 o) new skip s)
  = Py.len s - Z.of_nat skip
    + Py.count_go (String c0 o) skip s * (Py.len new - Py.len (String c0 o)).
Proof.
  unfold Py.len. revert skip. induction s as [|c r IH]; intros skip Hs.
  - simpl in *. assert (skip = 0%nat) as -> by lia. reflexivity.
  - destruct skip as [|k].
    + cbn [Py.replace_go Py.count_go].
      destruct (String.prefix (String c0 o) (String c r)) eqn:Hp.
      * apply prefix_length in Hp. cbn [String.length] in Hp.
        rewrite length_app, Nat2Z.inj_add, IH by lia. cbn [String.length]. lia.
      * cbn [String.length]. rewrite Nat2Z.inj_succ, IH by lia.
        cbn [String.length]. lia.
    + cbn [Py.replace_go Py.count_go]. cbn [String.length] in Hs.
      rewrite IH by lia. cbn [String.length]. lia.
Qed.

Lemma replace_length c0 o new s :
  Py.len (Py.replace s (String c0 o) new)
  = Py.len s + Py.count s (String c0 o) * (Py.len new - Py.len (String c0 o)).
Proof.
  unfold Py.replace, Py.count. rewrite replace_go_length by lia. lia.
Qed.

(** [find] answers -1 exactly when there is nothing to count. *)
Lemma find_from_count sub s i :
  0 <= i -> (Py.find_from sub s i = -1 <-> Py.count_go sub 0 s = 0).
Proof.
  revert i. induction s as [|c r IH]; intros i Hi.
  - cbn. destruct sub; cbn; split; intros; try reflexivity; lia.
  - cbn [Py.find_from Py.count_go].
    destruct (String.prefix sub (String c r)).
    + pose proof (count_go_nonneg sub 0 r).
      pose proof (count_go_nonneg sub (String.length (match sub with String _ o => o | _ => sub end)) r).
      destruct sub; split; intros; lia.
    + apply IH. lia.
Qed.

Lemma find_count s sub : Py.find s sub = -1 <-> Py.count s sub = 0.
Proof. apply find_from_count. lia. Qed.

Lemma int_raises x base e :
  Py.int x base = Raise e -> e = ValueError base x.
Proof.
  unfold Py.int. destruct (Py.split_sign _) as [sign s2].
  destruct (Py.scan_digits _ _ _ _) as [[v seen] rest].
  destruct (seen && _); [discriminate|]. now intros [= <-].
Qed.

Lemma map_result_raises {A B} (f : A -> result B) xs e :
  map_result f xs = Raise e -> exists x, In x xs /\ f x = Raise e.
Proof.
  induction xs as [|x xs IH]; simpl; [discriminate|].
  destruct (f x) as [y|e'] eqn:Hx.
  - destruct (map_result f xs) as [ys|e'']; [discriminate|].
    intros [= ->]. destruct (IH eq_refl) as (x' & Hin & Hf). eauto.
  - intros [= ->]. eauto.
Qed.

(** [hex2ip] raises nothing but the [ValueError] of [int]. *)
Lemma hex2ip_raises x e :
  Codec.hex2ip x = Raise e -> exists lit, e = ValueError 16 lit.
Proof.
  unfold Codec.hex2ip. intros H.
  destruct (map_result _ _) as [parts|e'] eqn:Hm; [discriminate|].
  injection H as ->.
  apply map_result_raises in Hm as (g & _ & Hg).
  destruct (Py.int g 16) as [v|e'] eqn:Hi; [discriminate|].
  injection Hg as ->. apply int_raises in Hi. eauto.
Qed.

Lemma setup_node_keeps_template E node s :
  pxe_template (obj (snd (setup_node E node s))) = pxe_template (obj s).
Proof.
  rewrite setup_node_run.
  destruct (Spec.refusal E _ _) as [[? ?]|]; [reflexivity|].
  destruct (Spec.refusal E _ _) as [[? ?]|]; [reflexivity|].
  destruct (Codec.hex2ip node); reflexivity.
Qed.

Lemma can_mkdir_refusals E s node :
  Spec.can_mkdir E s node = true ->
  Spec.refusal E (OS.fs (os s))
    (Py.path_join (conf_node_dir (obj s)) node) = None
  /\ Spec.refusal E
       (Spec.ensure_dir (Py.path_join (conf_node_dir (obj s)) node) (OS.fs (os s)))
       (Py.path_join (conf_overlay_dir (obj s)) node) = None.
Proof.
  unfold Spec.can_mkdir. cbv zeta.
  destruct (Spec.refusal E _ _); [discriminate|].
  destruct (Spec.refusal E _ _); [discriminate|]. auto.
Qed.

(** With the directories in place or created, the outcome of [read] is
    the outcome of [hex2ip]. *)
Lemma read_after_mkdir E s path length offset :
  Py.node_re_match (Py.basename path) = true ->
  Spec.can_mkdir E s (Py.basename path) = true ->
  fst (read E path length offset s)
  = match Codec.hex2ip (Py.basename path) with
    | Ok _ =>
        Ok (Py.slice (Py.replace (pxe_template (obj s)) "<NODE>"
                                 (Py.basename path))
                     offset (offset + length))
    | Raise e => Raise e
    end.
Proof.
  intros Hm Hc. rewrite read_run by assumption.
  pose proof (setup_node_keeps_template E (Py.basename path) s) as Ht.
  revert Ht. rewrite setup_node_run.
  destruct (can_mkdir_refusals E s _ Hc) as [-> ->].
  destruct (Codec.hex2ip (Py.basename path)) as [ip|e] eqn:Hh.
  - intros _. reflexivity.
  - intros _. destruct (hex2ip_raises _ _ Hh) as [lit ->]. reflexivity.
Qed.

Lemma hex8_length s : Spec.is_hex8 s = true -> Py.len s = 8.
Proof.
  unfold Spec.is_hex8, Py.len. intros H. apply andb_true_iff in H as [H _].
  apply Nat.eqb_eq in H. now rewrite H.
Qed.

(** ** Theorems on [read] and [setup_node] *)

(** C1 (amended). [read] returns the empty string for a path whose base
    name the pattern does not match.  For a base name of eight upper-case
    hexadecimal digits, and when the system refuses no directory creation,
    [read] returns exactly the window [offset, offset+length) of the
    template with every marker replaced by the name; past the end of that
    text the window is empty; at offset 0 it is the first
    [min(length, len(text))] characters; and when the loaded template has
    exactly one marker the length of the text is [pxe_template_length]. *)
Theorem read_window E s path length offset
  (Hoffset : 0 <= offset) (Hlength : 0 <= length) :
  let node := Py.basename path in
  let data := Py.replace (pxe_template (obj s)) "<NODE>" node in
  (Py.node_re_match node = false ->
   read E path length offset s = (Ok EmptyString, s))
  /\ (Spec.is_hex8 node = true -> Spec.can_mkdir E s node = true ->
      fst (read E path length offset s)
      = Ok (substring (Z.to_nat offset) (Z.to_nat length) data)
      /\ (Py.len data <= offset ->
          fst (read E path length offset s) = Ok EmptyString)
      /\ (offset = 0 ->
          fst (read E path length offset s)
          = Ok (substring 0 (Z.to_nat (Z.min length (Py.len data))) data))
      /\ (Spec.template_loaded s = true ->
          Py.count (pxe_template (obj s)) "<NODE>" = 1 ->
          Py.len data = pxe_template_length (obj s))).
Proof.
  intros node data. split.
  - intros Hm. unfold read. fold node. now rewrite Hm.
  - intros Hhex Hmk.
    assert (Hread : fst (read E path length offset s)
                    = Ok (substring (Z.to_nat offset) (Z.to_nat length) data)).
    { rewrite read_after_mkdir by (try apply hex8_matches; assumption).
      fold node. destruct (hex2ip_of_hex8 node Hhex) as (ip & -> & _).
      fold data. now rewrite slice_window. }
    repeat split.
    + exact Hread.
    + intros Hpast. rewrite Hread. f_equal. apply substring_past.
      unfold Py.len in Hpast. lia.
    + intros ->. rewrite Hread. f_equal. change (Z.to_nat 0) with 0%nat.
      rewrite (substring_clip 0 (Z.to_nat length) data).
      cbn [Nat.min]. rewrite Nat.sub_0_r. f_equal. unfold Py.len. lia.
    + intros Hl Hone. unfold Spec.template_loaded in Hl.
      apply andb_true_iff in Hl as [_ Hl]. apply Z.eqb_eq in Hl. rewrite Hl.
      subst data. change "<NODE>" with (String "<" "NODE>") at 1.
      rewrite replace_length. change (String "<" "NODE>") with "<NODE>".
      rewrite Hone. apply hex8_length in Hhex. fold node in Hhex. lia.
Qed.

Lemma read_window_witness :
  read Fixture.env_ok "/nope" 100 0 Fixture.empty_state
  = (Ok EmptyString, Fixture.empty_state)
  /\ fst (read Fixture.env_ok "/0A0B0C0D" 12 0 Fixture.empty_state)
     = Ok "nfsroot=/srv"
  /\ fst (read Fixture.env_ok "/0A0B0C0D" 12 8 Fixture.empty_state)
     = Ok "/srv/nodes/0".
Proof.
  split; [|split].
  - apply (read_window Fixture.env_ok Fixture.empty_state "/nope" 100 0);
      [lia | lia | reflexivity].
  - destruct (read_window Fixture.env_ok Fixture.empty_state "/0A0B0C0D" 12 0)
      as [_ H]; [lia | lia |].
    destruct H as [Hwindow _]; [reflexivity | reflexivity |]. exact Hwindow.
  - apply (read_window Fixture.env_ok Fixture.empty_state "/0A0B0C0D" 12 8);
      [lia | lia | reflexivity | reflexivity].
Defined.

(** C1, as stated, fails: the pattern accepts names that are not
    hexadecimal, and for them [read] raises instead of returning a window;
    and when a directory cannot be created the text of the error comes
    back whatever the window. *)
Lemma read_window_counterexample :
  Spec.is_shape8 (Py.basename "/GGGGGGGG") = true
  /\ fst (read Fixture.env_ok "/GGGGGGGG" 100 0 Fixture.empty_state)
     = Raise (ValueError 16 "GG")
  /\ fst (read Fixture.env_read_only "/0A0B0C0D" 4 0 Fixture.empty_state)
     = Ok "[Errno 13] Permission denied: '/srv/nodes/0A0B0C0D'".
Proof. repeat split; vm_compute; reflexivity. Qed.

(** C10. A base name of eight characters of [A-Z0-9]: if all are
    hexadecimal digits [read] returns a string, in every system; if one is
    not, and no directory creation is refused, [hex2ip] raises a
    [ValueError] inside [setup_node] and [read], which catches [OSError]
    only, raises it too.  ['/GGGGGGGG'] is such a path. *)
Theorem read_value_error E s path length offset :
  let node := Py.basename path in
  Spec.is_shape8 node = true ->
  (Spec.is_hex8 node = true ->
   exists data, fst (read E path length offset s) = Ok data)
  /\ (Spec.is_hex8 node = false -> Spec.can_mkdir E s node = true ->
      exists lit,
        Codec.hex2ip node = Raise (ValueError 16 lit)
        /\ fst (setup_node E node s) = Raise (ValueError 16 lit)
        /\ fst (read E path length offset s) = Raise (ValueError 16 lit))
  /\ (Spec.is_shape8 (Py.basename "/GGGGGGGG") = true
      /\ Spec.is_hex8 (Py.basename "/GGGGGGGG") = false).
Proof.
  intros node Hshape. split; [|split].
  - intros Hhex. rewrite read_run by now apply shape8_matches.
    fold node. rewrite setup_node_run.
    destruct (Spec.refusal E _ _) as [[? ?]|]; [eauto|].
    destruct (Spec.refusal E _ _) as [[? ?]|]; [eauto|].
    destruct (hex2ip_of_hex8 node Hhex) as (ip & -> & _). cbn. eauto.
  - intros Hn Hmk. destruct (hex2ip_not_hex node Hshape Hn) as [lit Hlit].
    exists lit. split; [exact Hlit|]. split.
    + rewrite setup_node_run.
      destruct (can_mkdir_refusals E s _ Hmk) as [-> ->]. now rewrite Hlit.
    + rewrite read_after_mkdir by (try apply shape8_matches; assumption).
      fold node. now rewrite Hlit.
  - split; reflexivity.
Qed.

Lemma read_value_error_witness :
  (exists lit,
     Codec.hex2ip "GGGGGGGG" = Raise (ValueError 16 lit)
     /\ fst (setup_node Fixture.env_ok "GGGGGGGG" Fixture.empty_state)
        = Raise (ValueError 16 lit)
     /\ fst (read Fixture.env_ok "/GGGGGGGG" 100 0 Fixture.empty_state)
        = Raise (ValueError 16 lit))
  /\ exists data,
       fst (read Fixture.env_read_only "/0A0B0C0D" 100 0 Fixture.empty_state)
       = Ok data.
Proof.
  split.
  - apply (read_value_error Fixture.env_ok Fixture.empty_state "/GGGGGGGG" 100 0);
      reflexivity.
  - apply (read_value_error Fixture.env_read_only Fixture.empty_state
             "/0A0B0C0D" 100 0); reflexivity.
Defined.

(** C5 (amended). [setup_node] for a name of eight hexadecimal digits, in
    a system that refuses no directory creation: both directories are
    created if and only if they are missing ([ensure_dir]); the mount
    command is issued if and only if the node path is not a mount point;
    then the export command is issued, for the node path, to the address
    [hex2ip] decodes from the name, with [no_root_squash] and the value of
    [_next_fsid], which is incremented.  A second call that finds the node
    path mounted issues one command only, the export with the next id. *)
Theorem setup_node_provisions E s node :
  Spec.is_hex8 node = true -> Spec.can_mkdir E s node = true ->
  let o := obj s in
  let w := os s in
  let node_path := Py.path_join (conf_node_dir o) node in
  let overlay_path := Py.path_join (conf_overlay_dir o) node in
  let dirs :=
    Spec.ensure_dir overlay_path (Spec.ensure_dir node_path (OS.fs w)) in
  let mount := mount_command (conf_root_dir o) overlay_path node_path in
  let mounted := OS.path_ismount w node_path in
  let after_mount :=
    if mounted then dirs else snd (OS.run_command E mount dirs) in
  exists ip,
    Codec.hex2ip node = Ok ip
    /\ let export := export_command node_path (Py.str (_next_fsid o)) ip in
       let s1 :=
         State (with_next_fsid (_next_fsid o + 1) o)
               (OS.World (snd (OS.run_command E export after_mount))
                         (OS.trace w ++ (if mounted then [] else [mount])
                                     ++ [export])%list) in
       setup_node E node s = (Ok node, s1)
       /\ (OS.path_ismount (os s1) node_path = true ->
           Spec.can_mkdir E s1 node = true ->
           fst (setup_node E node s1) = Ok node
           /\ OS.trace (os (snd (setup_node E node s1)))
              = (OS.trace (os s1)
                 ++ [export_command node_path (Py.str (_next_fsid o + 1)) ip])%list).
Proof.
  intros Hhex Hmk. cbv zeta.
  destruct (hex2ip_of_hex8 node Hhex) as (ip & Hip & _).
  exists ip. split; [exact Hip|]. split.
  - rewrite setup_node_run.
    destruct (can_mkdir_refusals E s _ Hmk) as [-> ->]. now rewrite Hip.
  - intros Hmounted Hmk1. rewrite setup_node_run.
    destruct (can_mkdir_refusals E _ _ Hmk1) as [-> ->]. rewrite Hip.
    cbn [obj os conf_node_dir conf_overlay_dir conf_root_dir with_next_fsid
         _next_fsid OS.trace fst snd] in *.
    rewrite Hmounted. split; reflexivity.
Qed.

Lemma setup_node_provisions_witness :
  exists ip,
    Codec.hex2ip "0A0B0C0D" = Ok ip
    /\ OS.trace (os (snd (setup_node Fixture.env_ok "0A0B0C0D"
                            (snd (setup_node Fixture.env_ok "0A0B0C0D"
                                    Fixture.empty_state)))))
       = ["mount -t aufs -o br:/srv/overlay/0A0B0C0D=rw:/srv/root=ro none /srv/nodes/0A0B0C0D";
          "exportfs -o rw,no_root_squash,fsid=100000 " +:+ ip +:+ ":/srv/nodes/0A0B0C0D";
          "exportfs -o rw,no_root_squash,fsid=100001 " +:+ ip +:+ ":/srv/nodes/0A0B0C0D"].
Proof.
  destruct (setup_node_provisions Fixture.env_ok Fixture.empty_state "0A0B0C0D")
    as (ip & Hip & Hrun & Hagain); [reflexivity | reflexivity |].
  exists ip. split; [exact Hip|].
  rewrite Hrun. cbn [snd]. 
  destruct Hagain as [_ Htrace]; [reflexivity | reflexivity |].
  rewrite Htrace. vm_compute in Hip. injection Hip as <-. reflexivity.
Defined.

(** C5, as stated, fails: a call can end before the export.  When the
    system refuses to create a directory [setup_node] raises and no command
    is issued; for a name of the pattern that is not hexadecimal the mount
    command is issued and an id is consumed, but [hex2ip] raises before
    the export. *)
Lemma setup_node_provisions_counterexample :
  setup_node Fixture.env_read_only "0A0B0C0D" Fixture.empty_state
  = (Raise (OSError 13 "[Errno 13] Permission denied: '/srv/nodes/0A0B0C0D'"),
     Fixture.empty_state)
  /\ fst (setup_node Fixture.env_ok "GGGGGGGG" Fixture.empty_state)
     = Raise (ValueError 16 "GG")
  /\ OS.trace (os (snd (setup_node Fixture.env_ok "GGGGGGGG" Fixture.empty_state)))
     = ["mount -t aufs -o br:/srv/overlay/GGGGGGGG=rw:/srv/root=ro none /srv/nodes/GGGGGGGG"]
  /\ _next_fsid (obj (snd (setup_node Fixture.env_ok "GGGGGGGG" Fixture.empty_state)))
     = 100001.
Proof. repeat split; vm_compute; reflexivity. Qed.

Lemma refusal_ext E E' m p :
  (forall q, OS.mkdir_error E q = OS.mkdir_error E' q) ->
  Spec.refusal E m p = Spec.refusal E' m p.
Proof. intros H. unfold Spec.refusal. destruct (m !! p); [reflexivity | apply H]. Qed.

(** C9 (amended). During a [read] of a path the pattern matches, what the
    mount and export commands do and the status they exit with has no
    influence on what [setup_node] and [read] return: two systems that
    refuse the same directory creations give the same results.  [read]
    never raises [OSError]: when [setup_node] raises one (a refused
    [os.mkdir]) [read] returns its text, whole, as if it were the
    content. *)
Theorem read_swallows_failures E E' s path length offset :
  let node := Py.basename path in
  Py.node_re_match node = true ->
  (forall p, OS.mkdir_error E p = OS.mkdir_error E' p) ->
  (forall errno text,
     fst (read E path length offset s) <> Raise (OSError errno text))
  /\ (forall errno text,
        fst (setup_node E node s) = Raise (OSError errno text) ->
        fst (read E path length offset s) = Ok text)
  /\ fst (setup_node E node s) = fst (setup_node E' node s)
  /\ fst (read E path length offset s) = fst (read E' path length offset s).
Proof.
  intros node Hm Hsame. repeat split.
  - intros errno text. rewrite read_run by assumption. fold node.
    rewrite setup_node_run.
    destruct (Spec.refusal E _ _) as [[? ?]|]; [discriminate|].
    destruct (Spec.refusal E _ _) as [[? ?]|]; [discriminate|].
    destruct (Codec.hex2ip node) as [ip|e] eqn:Hh; [discriminate|].
    destruct (hex2ip_raises _ _ Hh) as [lit ->]. discriminate.
  - intros errno text. rewrite read_run by assumption. fold node.
    destruct (setup_node E node s) as [[a|e] s']; cbn; [discriminate|].
    now intros [= ->].
  - rewrite !setup_node_run.
    rewrite <- !(refusal_ext E E') by assumption.
    destruct (Spec.refusal E _ _) as [[? ?]|]; [reflexivity|].
    destruct (Spec.refusal E _ _) as [[? ?]|]; [reflexivity|].
    destruct (Codec.hex2ip node); reflexivity.
  - rewrite !read_run by assumption. fold node. rewrite !setup_node_run.
    rewrite <- !(refusal_ext E E') by assumption.
    destruct (Spec.refusal E _ _) as [[? ?]|]; [reflexivity|].
    destruct (Spec.refusal E _ _) as [[? ?]|]; [reflexivity|].
    destruct (Codec.hex2ip node) as [ip|e] eqn:Hh; [reflexivity|].
    destruct (hex2ip_raises _ _ Hh) as [lit ->]. reflexivity.
Qed.

Lemma read_swallows_failures_witness :
  fst (read Fixture.env_commands_fail "/0A0B0C0D" 100 0 Fixture.empty_state)
  = fst (read Fixture.env_ok "/0A0B0C0D" 100 0 Fixture.empty_state).
Proof.
  apply (read_swallows_failures Fixture.env_commands_fail Fixture.env_ok
           Fixture.empty_state "/0A0B0C0D" 100 0);
    [reflexivity | intros p; reflexivity].
Defined.

(** C9, as stated, fails: with both commands failing (exit status 256)
    [read] returns the rendered template, the bytes it returns when they
    succeed, and no text about the failure. *)
Lemma read_swallows_failures_counterexample :
  (forall cmd m, fst (OS.run_command Fixture.env_commands_fail cmd m) = 256)
  /\ OS.trace (os (snd (read Fixture.env_commands_fail "/0A0B0C0D" 100 0
                          Fixture.empty_state)))
     = ["mount -t aufs -o br:/srv/overlay/0A0B0C0D=rw:/srv/root=ro none /srv/nodes/0A0B0C0D";
        "exportfs -o rw,no_root_squash,fsid=100000 10.11.12.13:/srv/nodes/0A0B0C0D"]
  /\ fst (read Fixture.env_commands_fail "/0A0B0C0D" 100 0 Fixture.empty_state)
     = Ok "nfsroot=/srv/nodes/0A0B0C0D rw"
  /\ fst (read Fixture.env_ok "/0A0B0C0D" 100 0 Fixture.empty_state)
     = Ok "nfsroot=/srv/nodes/0A0B0C0D rw".
Proof. repeat split; vm_compute; reflexivity. Qed.

(** *** The entries of a directory *)

Lemma in_entries_under w d p :
  In p (OS.entries_under w d)
  <-> OS.child_of d p = true /\ is_Some (OS.fs w !! p).
Proof.
  unfold OS.entries_under. rewrite filter_In, <- list_elem_of_In.
  rewrite list_elem_of_fmap. split.
  - intros [([q k] & -> & Hin) Hc]. apply elem_of_map_to_list in Hin.
    simpl in *. eauto.
  - intros [Hc [k Hk]]. split; [|exact Hc].
    exists (p, k). split; [reflexivity|]. now apply elem_of_map_to_list.
Qed.

Lemma NoDup_entries_under w d : NoDup (OS.entries_under w d).
Proof.
  unfold OS.entries_under. apply NoDup_ListNoDup, List.NoDup_filter.
  apply NoDup_ListNoDup, NoDup_fst_map_to_list.
Qed.

Lemma entries_under_nil w d :
  OS.entries_under w d = []
  <-> forall p, OS.child_of d p = true -> OS.fs w !! p = None.
Proof.
  split.
  - intros Hnil p Hc. destruct (OS.fs w !! p) as [k|] eqn:Hk; [|reflexivity].
    assert (In p (OS.entries_under w d)) as Hin
      by (apply in_entries_under; eauto).
    rewrite Hnil in Hin. destruct Hin.
  - intros H. destruct (OS.entries_under w d) as [|p l] eqn:He; [reflexivity|].
    assert (In p (OS.entries_under w d)) as Hin by (rewrite He; now left).
    apply in_entries_under in Hin as [Hc [k Hk]].
    rewrite (H p Hc) in Hk. discriminate.
Qed.

(** Removing a path empties no directory's listing less. *)
Lemma entries_under_delete_nil m t t' q d :
  OS.entries_under (OS.World m t) d = [] ->
  OS.entries_under (OS.World (delete q m) t') d = [].
Proof.
  rewrite !entries_under_nil. cbn [OS.fs]. intros H p Hc.
  apply lookup_delete_None. right. now apply H.
Qed.

Lemma rmdir_empty_dir E p w :
  OS.fs w !! p = Some OS.KDir -> OS.entries_under w p = [] ->
  OS.rmdir_error E p = None ->
  OS.rmdir E p w = (Ok tt, OS.World (delete p (OS.fs w)) (OS.trace w)).
Proof. intros Hk He Hr. unfold OS.rmdir. now rewrite Hk, He, Hr. Qed.

Lemma listdir_can_list E w d :
  Spec.can_list E w d = true ->
  OS.listdir E w d = Ok (map Py.basename (OS.entries_under w d)).
Proof.
  unfold Spec.can_list, OS.path_isdir, OS.listdir. intros H.
  apply andb_true_iff in H as [Hd Hr].
  destruct (OS.listdir_error E d); [discriminate|].
  destruct (OS.fs w !! d) as [[]|]; try discriminate; reflexivity.
Qed.

Lemma child_of_join d p :
  OS.child_of d p = true -> Py.path_join d (Py.basename p) = p.
Proof.
  unfold OS.child_of. intros H. apply andb_true_iff in H as [H _].
  symmetry. now apply String.eqb_eq.
Qed.

Lemma orphan_ok_delete E m t p q :
  p <> q ->
  Spec.orphan_ok E (OS.World m t) p = true ->
  Spec.orphan_ok E (OS.World (delete q m) t) p = true.
Proof.
  intros Hne. unfold Spec.orphan_ok, OS.path_ismount, OS.path_isdir.
  cbn [OS.fs]. rewrite lookup_delete_ne by congruence.
  destruct (m !! p) as [[]|]; try (intros; reflexivity || assumption).
  destruct (OS.entries_under (OS.World m t) p) eqn:He; [|discriminate].
  intros H. now rewrite (entries_under_delete_nil m t t q p He).
Qed.

(** The loop of [get_node_list] over the entries [ps] of the node
    directory *)
Lemma get_node_list_loop_run E o t ps :
  forall m nodes,
    NoDup ps ->
    Forall (fun p => OS.child_of (conf_node_dir o) p = true) ps ->
    Forall (fun p => Spec.orphan_ok E (OS.World m t) p = true) ps ->
    exists m',
      get_node_list_loop E (map Py.basename ps) nodes (State o (OS.World m t))
      = (Ok (nodes ++ map Py.basename
                        (List.filter (OS.path_ismount (OS.World m t)) ps))%list,
         State o (OS.World m' t))
      /\ forall q,
           (In q ps -> m !! q = Some OS.KDir -> m' !! q = None)
           /\ (~ (In q ps /\ m !! q = Some OS.KDir) -> m' !! q = m !! q).
Proof.
  induction ps as [|p ps IH]; intros m nodes Hnd Hch Hok.
  - exists m. split.
    + cbn. now rewrite app_nil_r.
    + intros q. split; [intros []|reflexivity].
  - apply NoDup_cons in Hnd as [Hnotin Hnd].
    rewrite list_elem_of_In in Hnotin.
    inversion Hch as [|? ? Hc Hch']; subst.
    inversion Hok as [|? ? Hp Hok']; subst.
    cbn [map get_node_list_loop].
    rewrite (bind_ok _ _ _ o _) by reflexivity.
    rewrite (child_of_join _ _ Hc).
    rewrite (bind_ok _ _ _ (OS.path_ismount (OS.World m t) p) _) by reflexivity.
    cbn [List.filter].
    destruct (OS.path_ismount (OS.World m t) p) eqn:Hmount.
    + (* a mount point: listed *)
      destruct (IH m (nodes ++ [Py.basename p])%list Hnd Hch' Hok')
        as (m' & Hrun & Hm').
      exists m'. split.
      * rewrite Hrun. cbn [map]. now rewrite <- app_assoc.
      * intros q. destruct (Hm' q) as [H1 H2]. split.
        -- intros [<-|Hin] Hk; [|now apply H1].
           unfold OS.path_ismount in Hmount. cbn [OS.fs] in Hmount.
           rewrite Hk in Hmount. discriminate.
        -- intros Hn. apply H2. intros [Hin Hk]. apply Hn. split; [now right|exact Hk].
    + rewrite (bind_ok _ _ _ (OS.path_isdir (OS.World m t) p) _) by reflexivity.
      destruct (OS.path_isdir (OS.World m t) p) eqn:Hdir.
      * (* a directory that is no mount point: removed *)
        unfold Spec.orphan_ok in Hp. rewrite Hmount, Hdir in Hp.
        cbn [OS.fs] in Hp.
        destruct (m !! p) as [[]|] eqn:Hk; try discriminate.
        destruct (OS.entries_under (OS.World m t) p) eqn:He; [|discriminate].
        destruct (OS.rmdir_error E p) eqn:Hr; [discriminate|].
        assert (Hrm : do_os (OS.rmdir E p) (State o (OS.World m t))
                      = (Ok tt, State o (OS.World (delete p m) t))).
        { unfold do_os. cbn [os obj].
          now rewrite (rmdir_empty_dir E p (OS.World m t) Hk He Hr). }
        rewrite (bind_ok _ _ _ _ _ Hrm).
        destruct (IH (delete p m) nodes Hnd Hch') as (m' & Hrun & Hm').
        { rewrite Forall_forall in Hok' |- *. intros p' Hin.
          apply orphan_ok_delete; [|now apply Hok'].
          intros ->. apply Hnotin. now apply list_elem_of_In. }
        exists m'. split.
        -- rewrite Hrun. do 4 f_equal. apply filter_ext_in. intros p' Hin.
           unfold OS.path_ismount. cbn [OS.fs].
           rewrite lookup_delete_ne; [reflexivity|].
           intros ->. now apply Hnotin.
        -- intros q. destruct (Hm' q) as [H1 H2]. split.
           ++ intros [<-|Hin] Hq.
              ** rewrite H2; [apply lookup_delete_eq|]. intros [Hin _].
                 now apply Hnotin.
              ** apply H1; [exact Hin|]. rewrite lookup_delete_ne; [exact Hq|].
                 intros ->. now apply Hnotin.
           ++ intros Hn. destruct (decide (q = p)) as [->|Hne].
              ** exfalso. apply Hn. split; [now left | exact Hk].
              ** rewrite H2; [now apply lookup_delete_ne|].
                 intros [Hin Hq]. apply Hn. split; [now right|].
                 now rewrite lookup_delete_ne in Hq.
      * (* not a directory: left alone *)
        destruct (IH m nodes Hnd Hch' Hok') as (m' & Hrun & Hm').
        exists m'. split; [exact Hrun|].
        intros q. destruct (Hm' q) as [H1 H2]. split.
        -- intros [<-|Hin] Hq; [|now apply H1].
           unfold OS.path_isdir in Hdir. cbn [OS.fs] in Hdir.
           rewrite Hq in Hdir. discriminate.
        -- intros Hn. apply H2. intros [Hin Hq]. apply Hn. split; [now right|exact Hq].
Qed.

Lemma filter_map_basename d (f : string -> bool) ps :
  Forall (fun p => OS.child_of d p = true) ps ->
  map Py.basename (List.filter f ps)
  = List.filter (fun n => f (Py.path_join d n)) (map Py.basename ps).
Proof.
  induction 1 as [|p ps Hc _ IH]; [reflexivity|].
  cbn [List.filter map]. rewrite (child_of_join d p Hc).
  destruct (f p); cbn [map]; now rewrite IH.
Qed.

(** C4 (amended). In a state where the node directory can be listed (it
    is a directory and the system does not refuse to read it) and every
    entry of it that is a directory and not a mount point is an empty real
    directory whose removal the system does not refuse, [get_node_list]
    returns exactly the names [os.listdir] gives that are mount points, in
    the order of [os.listdir]; it removes exactly the entries that are
    plain directories and leaves every other path as it was. *)
Theorem get_node_list_lists_mounts E s :
  let d := conf_node_dir (obj s) in
  let w := os s in
  Spec.can_list E w d = true ->
  Spec.orphans_removable E w d = true ->
  exists names m',
    OS.listdir E w d = Ok names
    /\ get_node_list E s
       = (Ok (List.filter (fun n => OS.path_ismount w (Py.path_join d n)) names),
          State (obj s) (OS.World m' (OS.trace w)))
    /\ forall p,
         m' !! p
         = if OS.child_of d p && bool_decide (OS.fs w !! p = Some OS.KDir)
           then None else OS.fs w !! p.
Proof.
  intros d w Hls Hok. destruct s as [o [m t]]. cbn [obj os] in d, w.
  assert (Hch : Forall (fun p => OS.child_of d p = true) (OS.entries_under w d)).
  { apply Forall_forall. intros p Hin%list_elem_of_In.
    now apply in_entries_under in Hin as [Hc _]. }
  destruct (get_node_list_loop_run E o t (OS.entries_under w d) m [])
    as (m' & Hrun & Hm').
  - apply NoDup_entries_under.
  - exact Hch.
  - apply Forall_forall. intros p Hin%list_elem_of_In.
    unfold Spec.orphans_removable in Hok. rewrite forallb_forall in Hok.
    now apply Hok.
  - exists (map Py.basename (OS.entries_under w d)), m'.
    pose proof (listdir_can_list E w d Hls) as Hlist.
    split; [exact Hlist|]. split.
    + unfold get_node_list.
      rewrite (bind_ok _ _ _ o _) by reflexivity.
      rewrite (bind_ok _ _ (State o w) (map Py.basename (OS.entries_under w d))
                 (State o (OS.World m t)))
        by (unfold do_os; cbn [os obj]; fold d; now rewrite Hlist).
      rewrite Hrun. cbn [app OS.trace].
      now rewrite (filter_map_basename d).
    + intros p. destruct (Hm' p) as [H1 H2]. cbn [OS.fs].
      destruct (OS.child_of d p) eqn:Hc; cbn [andb].
      * destruct (decide (m !! p = Some OS.KDir)) as [Hk|Hk].
        -- rewrite bool_decide_eq_true_2 by exact Hk. apply H1; [|exact Hk].
           apply in_entries_under. split; [exact Hc|]. cbn [OS.fs]. eauto.
        -- rewrite bool_decide_eq_false_2 by exact Hk. apply H2. now intros [_ ?].
      * apply H2. intros [Hin _]. apply in_entries_under in Hin as [Hc' _].
        congruence.
Qed.

Lemma get_node_list_lists_mounts_witness :
  exists m',
    get_node_list Fixture.env_ok Fixture.tidy_state
    = (Ok ["0A0B0C0D"], State Fixture.object (OS.World m' []))
    /\ m' !! "/srv/nodes/AABBCCDD" = None
    /\ m' !! "/srv/nodes/0A0B0C0D" = Some OS.KMount
    /\ m' !! "/srv/nodes/README" = Some OS.KFile
    /\ m' !! "/srv/nodes" = Some OS.KDir.
Proof.
  destruct (get_node_list_lists_mounts Fixture.env_ok Fixture.tidy_state)
    as (names & m' & Hls & Hrun & Hm'); [reflexivity|reflexivity|].
  exists m'. vm_compute in Hls. injection Hls as <-. split; [exact Hrun|].
  rewrite !Hm'. repeat split; reflexivity.
Defined.

(** C4, as stated, fails: a left-over directory that is not empty makes
    [os.rmdir] raise; [get_node_list] returns no listing and the directory
    stays.  So it is when the system refuses to remove an empty left-over
    directory, and when the node directory is missing or cannot be read:
    [os.listdir] raises and nothing is returned. *)
Lemma get_node_list_lists_mounts_counterexample :
  OS.path_isdir (os Fixture.untidy_state) "/srv/nodes/C0A80101" = true
  /\ OS.path_ismount (os Fixture.untidy_state) "/srv/nodes/C0A80101" = false
  /\ fst (get_node_list Fixture.env_ok Fixture.untidy_state)
     = Raise (OSError 39 "[Errno 39] Directory not empty: '/srv/nodes/C0A80101'")
  /\ OS.path_isdir (os (snd (get_node_list Fixture.env_ok Fixture.untidy_state)))
       "/srv/nodes/C0A80101" = true
  /\ fst (get_node_list Fixture.env_read_only Fixture.tidy_state)
     = Raise (OSError 13 "[Errno 13] Permission denied: '/srv/nodes/AABBCCDD'")
  /\ fst (get_node_list Fixture.env_unreadable Fixture.tidy_state)
     = Raise (OSError 13 "[Errno 13] Permission denied: '/srv/nodes'")
  /\ fst (get_node_list Fixture.env_ok Fixture.empty_state)
     = Raise (OSError 2 "[Errno 2] No such file or directory: '/srv/nodes'").
Proof. repeat split; vm_compute; reflexivity. Qed.

(** ** Theorems on [getattr] and the template *)

(** C7 (amended). [getattr] changes nothing and classifies every path by
    the table in which the node file is recognised by its base name: ['/']
    and ['/by-ip'] are directories, a path that starts with ['/by-ip/'] is a
    symbolic link, any other path whose base name matches the pattern is a
    regular file of size [pxe_template_length], and every other path gets
    [-ENOENT].  On a top-level path this is the table of the
    specification. *)
Theorem getattr_classifies E s path :
  exists a,
    getattr E path s = (Ok a, s)
    /\ Spec.attr_entity a = Spec.table_base_name path
    /\ match Spec.table_base_name path with
       | Spec.Directory =>
           exists st, a = AStat st /\ st_mode st = Z.lor S_IFDIR 493
                      /\ st_size st = 4096
       | Spec.SymLink =>
           exists st, a = AStat st /\ st_mode st = Z.lor S_IFLNK 493
       | Spec.NodeFile =>
           exists st, a = AStat st /\ st_mode st = Z.lor S_IFREG 438
                      /\ st_size st = pxe_template_length (obj s)
       | Spec.NotFound => a = AErr (- ENOENT)
       end
    /\ (Spec.table_top_level path <> Spec.NotFound ->
        Spec.table_top_level path = Spec.table_base_name path).
Proof.
  unfold getattr, Spec.table_base_name, Spec.table_top_level.
  rewrite (bind_ok _ _ s (obj s) s) by reflexivity.
  destruct (String.eqb path "/" || String.eqb path "/by-ip") eqn:Hroot.
  { eexists. split; [reflexivity|]. split; [reflexivity|]. split; [|reflexivity].
    eexists. repeat split. }
  unfold Py.startswith.
  destruct (String.prefix "/by-ip/" path) eqn:Hlink.
  { assert ((Py.len "/by-ip" <? Py.len path) = true) as ->.
    { apply prefix_length in Hlink. apply Z.ltb_lt. unfold Py.len.
      cbn [String.length] in *. lia. }
    eexists. split; [reflexivity|]. split; [reflexivity|]. split; [|reflexivity].
    eexists. repeat split. }
  cbn [andb].
  destruct (Py.node_re_match (Py.basename path)) eqn:Hnode.
  { eexists. split; [reflexivity|]. split; [reflexivity|]. split.
    - eexists. repeat split.
    - destruct path as [|c name]; [congruence|].
      destruct (Ascii.eqb c "/" && negb (Py.has_slash name) && Py.node_re_match name);
        congruence. }
  eexists. split; [reflexivity|]. split; [reflexivity|]. split; [reflexivity|].
  destruct path as [|c name]; [congruence|].
  destruct (Ascii.eqb_spec c "/") as [->|]; cbn [andb]; [|congruence].
  destruct (Py.has_slash name) eqn:Hs; cbn [andb negb]; [congruence|].
  cbn [Py.basename] in Hnode. rewrite Hs in Hnode. cbn in Hnode.
  rewrite Hnode. congruence.
Qed.

Lemma getattr_classifies_witness :
  exists a,
    getattr Fixture.env_ok "/0A0B0C0D" Fixture.empty_state
    = (Ok a, Fixture.empty_state)
    /\ Spec.attr_entity a = Spec.NodeFile.
Proof.
  destruct (getattr_classifies Fixture.env_ok Fixture.empty_state "/0A0B0C0D")
    as (a & Hrun & Hent & _).
  exists a. split; [exact Hrun | exact Hent].
Defined.

(** C7, as stated, fails: a path that is deeper than the top level and
    whose last component matches the pattern is in no row of the table,
    and [getattr] reports a regular file. *)
Lemma getattr_classifies_counterexample :
  Spec.table_top_level "/nope/AABBCCDD" = Spec.NotFound
  /\ exists st,
       getattr Fixture.env_ok "/nope/AABBCCDD" Fixture.empty_state
       = (Ok (AStat st), Fixture.empty_state)
       /\ Z.land (st_mode st) S_IFMT = S_IFREG
       /\ st_size st = 30.
Proof. split; [reflexivity|]. eexists. repeat split. Qed.

Example getattr_nope :
  fst (getattr Fixture.env_ok "/nope" Fixture.empty_state) = Ok (AErr (-2)).
Proof. reflexivity. Qed.

Example getattr_by_ip :
  Spec.attr_entity
    (match fst (getattr Fixture.env_ok "/by-ip/192.168.1.1" Fixture.empty_state)
     with Ok a => a | Raise _ => AErr 0 end) = Spec.SymLink.
Proof. reflexivity. Qed.

Ltac step_get_self :=
  match goal with
  | |- context [bind get_self ?k ?st] =>
      rewrite (bind_ok get_self k st (obj st) st eq_refl)
  end.

Ltac step_set_self :=
  match goal with
  | |- context [bind (set_self ?f) ?k ?st] =>
      rewrite (bind_ok (set_self f) k st tt (State (f (obj st)) (os st)) eq_refl)
  end.

Lemma load_config_run c seed o w :
  Py.int (cfg_start_fsid c) 10 = Ok seed ->
  load_config c (State o w)
  = (Ok tt,
     State (with_next_fsid seed
              (with_conf_overlay_dir (cfg_overlay_dir c)
                 (with_conf_root_dir (cfg_root_dir c)
                    (with_conf_node_dir (cfg_node_dir c)
                       (with_conf_pxe_template (cfg_pxe_template c) o)))))
           w).
Proof.
  intros Hseed. unfold load_config, bind, set_self, lift. rewrite Hseed.
  reflexivity.
Qed.

Lemma load_template_text_run text s :
  load_template_text text s
  = if Py.find text "<NODE>" =? -1
    then (Raise (PXEBootError "Could not find <NODE> in PXE config template"),
          State (with_pxe_template text (obj s)) (os s))
    else (Ok tt,
          State (with_pxe_template_length
                   (Py.len text - Py.len "<NODE>" + 8)
                   (with_pxe_template text (obj s)))
                (os s)).
Proof.
  unfold load_template_text. step_set_self. step_get_self.
  cbn [obj pxe_template with_pxe_template].
  destruct (Py.find text "<NODE>" =? -1); reflexivity.
Qed.

(** C8 (amended). [load_template] accepts a text if and only if the
    marker occurs in it at least once; it then stores the text and the size
    [len(text) - len('<NODE>') + 8].  A text without the marker raises
    [PXEBootError], and so does the constructor, which calls
    [load_template]. *)
Theorem load_template_needs_marker E c text s :
  ((exists s', load_template_text text s = (Ok tt, s'))
   <-> 1 <= Py.count text "<NODE>")
  /\ (1 <= Py.count text "<NODE>" ->
      load_template_text text s
      = (Ok tt,
         State (with_pxe_template_length
                  (Py.len text - Py.len "<NODE>" + 8)
                  (with_pxe_template text (obj s)))
               (os s))
      /\ Spec.template_loaded (snd (load_template_text text s)) = true)
  /\ (Py.count text "<NODE>" = 0 ->
      fst (load_template_text text s)
      = Raise (PXEBootError "Could not find <NODE> in PXE config template")
      /\ (OS.file_content E (cfg_pxe_template c) = Some text ->
          (exists seed, Py.int (cfg_start_fsid c) 10 = Ok seed) ->
          fst (init E c s)
          = Raise (PXEBootError "Could not find <NODE> in PXE config template"))).
Proof.
  pose proof (find_count text "<NODE>") as Hfc.
  pose proof (count_go_nonneg "<NODE>" 0 text) as Hnn. fold (Py.count text "<NODE>") in Hnn.
  pose proof (load_template_text_run text s) as Hrun.
  split; [|split].
  - rewrite Hrun. destruct (Z.eqb_spec (Py.find text "<NODE>") (-1)) as [He|Hne].
    + split; [intros [s' [=]] | intros H1; apply Hfc in He; lia].
    + split; [intros _ | eauto].
      destruct (Z.eq_dec (Py.count text "<NODE>") 0) as [H0|]; [|lia].
      apply Hfc in H0. contradiction.
  - intros H1. rewrite Hrun.
    destruct (Z.eqb_spec (Py.find text "<NODE>") (-1)) as [He|Hne].
    + apply Hfc in He. lia.
    + split; [reflexivity|]. unfold Spec.template_loaded. cbn.
      apply andb_true_iff. split; [|apply Z.eqb_refl].
      apply negb_true_iff. now apply Z.eqb_neq.
  - intros H0. apply Hfc in H0. split.
    + rewrite Hrun, H0. reflexivity.
    + intros Hfile [seed Hseed]. unfold init.
      step_set_self.
      rewrite (bind_ok _ _ _ _ _ (load_config_run c seed _ _ Hseed)).
      step_get_self.
      cbn [obj conf_pxe_template with_next_fsid with_conf_overlay_dir
           with_conf_root_dir with_conf_node_dir with_conf_pxe_template].
      unfold load_template. rewrite Hfile.
      erewrite bind_raise; [reflexivity|].
      rewrite load_template_text_run, H0. reflexivity.
Qed.

Lemma load_template_needs_marker_witness :
  (exists s', load_template_text Fixture.template Fixture.empty_state = (Ok tt, s'))
  /\ fst (init Fixture.env_no_marker Fixture.options Fixture.empty_state)
     = Raise (PXEBootError "Could not find <NODE> in PXE config template").
Proof.
  split.
  - apply (load_template_needs_marker Fixture.env_ok Fixture.options
             Fixture.template Fixture.empty_state).
    vm_compute. discriminate.
  - apply (load_template_needs_marker Fixture.env_no_marker Fixture.options
             "nfsroot=/srv/nodes/node rw" Fixture.empty_state).
    + reflexivity.
    + reflexivity.
    + exists 100000. reflexivity.
Defined.

(** C8, as stated, fails: a template with two markers is accepted. *)
Lemma load_template_needs_marker_counterexample :
  Py.count "<NODE> <NODE>" "<NODE>" = 2
  /\ fst (load_template_text "<NODE> <NODE>" Fixture.empty_state) = Ok tt.
Proof. split; reflexivity. Qed.

(** C3, at a failing input.  [load_template] accepts a template with two
    markers and stores the size of a rendering with one; [get_pxe_data]
    replaces both, and its result is two characters longer than
    [pxe_template_length]. *)
Theorem rendered_length_two_markers :
  let s := snd (load_template_text "<NODE> <NODE>" Fixture.empty_state) in
  fst (load_template_text "<NODE> <NODE>" Fixture.empty_state) = Ok tt
  /\ Spec.is_hex8 "0A0B0C0D" = true
  /\ pxe_template_length (obj s) = 15
  /\ fst (get_pxe_data "0A0B0C0D" s) = Ok "0A0B0C0D 0A0B0C0D"
  /\ Py.len "0A0B0C0D 0A0B0C0D" = 17.
Proof. repeat split. Qed.

(** With exactly one marker the size is right, for every name of eight
    characters. *)
Lemma rendered_length_one_marker text node s :
  Py.count text "<NODE>" = 1 -> Py.len node = 8 ->
  let s' := snd (load_template_text text s) in
  fst (load_template_text text s) = Ok tt
  /\ exists data, fst (get_pxe_data node s') = Ok data
       /\ Py.len data = pxe_template_length (obj s').
Proof.
  intros Hone Hlen. cbv zeta. rewrite load_template_text_run.
  destruct (Z.eqb_spec (Py.find text "<NODE>") (-1)) as [He|_].
  - apply find_count in He. lia.
  - split; [reflexivity|]. eexists. split; [reflexivity|].
    cbn [snd obj pxe_template pxe_template_length with_pxe_template_length
         with_pxe_template].
    change "<NODE>" with (String "<" "NODE>") at 1.
    rewrite replace_length. change (String "<" "NODE>") with "<NODE>".
    rewrite Hone. lia.
Qed.

(** ** Theorems on [get_next_fsid] *)

Lemma get_next_fsid_times_run k : forall o w,
  get_next_fsid_times k (State o w)
  = (Ok (map (fun i => _next_fsid o + Z.of_nat i) (seq 0 k)),
     State (with_next_fsid (_next_fsid o + Z.of_nat k) o) w).
Proof.
  induction k as [|k IH]; intros o w.
  - cbn. rewrite Z.add_0_r. now destruct o.
  - cbn [get_next_fsid_times].
    rewrite (bind_ok _ _ _ _ _ (get_next_fsid_run o w)).
    rewrite (bind_ok _ _ _ _ _ (IH _ w)).
    cbn [ret seq map _next_fsid with_next_fsid]. unfold ret.
    rewrite <- seq_shift, map_map.
    replace (_next_fsid o + Z.of_nat 0) with (_next_fsid o) by lia.
    replace (_next_fsid o + 1 + Z.of_nat k) with (_next_fsid o + Z.of_nat (S k))
      by lia.
    f_equal. f_equal. f_equal. apply map_ext. intros i. lia.
Qed.

Lemma run_app a b : forall calls counter,
  Threads.run (a ++ b)%list calls counter
  = let '(calls', counter') := Threads.run a calls counter in
    Threads.run b calls' counter'.
Proof.
  induction a as [|i a IH]; intros calls counter; [reflexivity|].
  cbn [app Threads.run].
  destruct (calls !! i) as [c|]; [|apply IH].
  destruct (Threads.step c counter). apply IH.
Qed.

Lemma insert_middle {A} (done rest : list A) x y :
  <[length done := y]> (done ++ x :: rest)%list = (done ++ y :: rest)%list.
Proof.
  rewrite insert_app_r_alt by lia. now rewrite Nat.sub_diag.
Qed.

Lemma run_step i sched calls counter c :
  calls !! i = Some c ->
  Threads.run (i :: sched) calls counter
  = Threads.run sched (<[i := fst (Threads.step c counter)]> calls)
                (snd (Threads.step c counter)).
Proof.
  intros H. cbn [Threads.run]. rewrite H. now destruct (Threads.step c counter).
Qed.

(** One call, alone from its first statement to its last *)
Lemma run_one_call done rest counter :
  Threads.run [length done; length done; length done]
    (done ++ Threads.AtAssign :: rest)%list counter
  = ((done ++ Threads.Returned counter :: rest)%list, counter + 1).
Proof.
  rewrite (run_step _ _ _ _ Threads.AtAssign)
    by now apply list_lookup_middle.
  rewrite insert_middle. cbn [Threads.step fst snd].
  rewrite (run_step _ _ _ _ (Threads.AtIncrement counter))
    by now apply list_lookup_middle.
  rewrite insert_middle. cbn [Threads.step fst snd].
  rewrite (run_step _ _ _ _ (Threads.AtReturn counter))
    by now apply list_lookup_middle.
  rewrite insert_middle. reflexivity.
Qed.

Lemma run_serial k : forall done counter,
  Threads.run (flat_map (fun i => [i; i; i]) (seq (length done) k))
    (done ++ replicate k Threads.AtAssign)%list counter
  = ((done ++ map (fun i => Threads.Returned (counter + Z.of_nat i)) (seq 0 k))%list,
     counter + Z.of_nat k).
Proof.
  induction k as [|k IH]; intros done counter.
  - cbn. now rewrite Z.add_0_r.
  - cbn [seq flat_map replicate]. rewrite run_app, run_one_call.
    replace (done ++ Threads.Returned counter :: replicate k Threads.AtAssign)%list
      with ((done ++ [Threads.Returned counter]) ++ replicate k Threads.AtAssign)%list
      by now rewrite <- app_assoc.
    replace (S (length done)) with (length (done ++ [Threads.Returned counter])%list)
      by (rewrite List.length_app; cbn; lia).
    rewrite IH. rewrite <- app_assoc. cbn [app map]. f_equal.
    + f_equal. f_equal; [f_equal; lia|].
      rewrite <- seq_shift, map_map. apply map_ext. intros i. f_equal. lia.
    + lia.
Qed.

(** C6 (amended). Calls of [get_next_fsid] that do not overlap (each one
    returns before the next one starts) return the seed that [load_config]
    read from [start_fsid], then seed + 1, seed + 2, ...: the values are
    strictly increasing, so no two are equal.  The statement-by-statement
    runs in which each call finishes before the next begins return the same
    values. *)
Theorem get_next_fsid_sequential c s k seed :
  Py.int (cfg_start_fsid c) 10 = Ok seed ->
  let s0 := snd (load_config c s) in
  let ids := map (fun i => seed + Z.of_nat i) (seq 0 k) in
  _next_fsid (obj s0) = seed
  /\ fst (get_next_fsid_times k s0) = Ok ids
  /\ _next_fsid (obj (snd (get_next_fsid_times k s0))) = seed + Z.of_nat k
  /\ NoDup ids
  /\ (forall i j a b,
        ids !! i = Some a -> ids !! j = Some b -> (i < j)%nat -> a < b)
  /\ Threads.run (Threads.serial k) (replicate k Threads.AtAssign) seed
     = (map Threads.Returned ids, seed + Z.of_nat k).
Proof.
  intros Hseed s0 ids. subst s0. destruct s as [o w].
  rewrite (load_config_run c seed o w Hseed). cbn [snd].
  rewrite get_next_fsid_times_run. cbn [fst snd obj _next_fsid with_next_fsid].
  repeat split.
  - change (NoDup ((fun i => seed + Z.of_nat i) <$> seq 0 k)).
    apply NoDup_fmap_2; [intros i j ?; lia | apply NoDup_seq].
  - intros i j a b Ha Hb Hlt. subst ids.
    change (((fun i => seed + Z.of_nat i) <$> seq 0 k) !! i = Some a) in Ha.
    change (((fun i => seed + Z.of_nat i) <$> seq 0 k) !! j = Some b) in Hb.
    rewrite list_lookup_fmap in Ha, Hb.
    destruct (seq 0 k !! i) as [i'|] eqn:Hi; [|discriminate].
    destruct (seq 0 k !! j) as [j'|] eqn:Hj; [|discriminate].
    apply lookup_seq in Hi as [-> _], Hj as [-> _].
    cbn in Ha, Hb. injection Ha as <-. injection Hb as <-. lia.
  - pose proof (run_serial k [] seed) as H. cbn [app length] in H.
    unfold Threads.serial. rewrite H. subst ids. now rewrite map_map.
Qed.

Lemma get_next_fsid_sequential_witness :
  fst (get_next_fsid_times 3 (snd (load_config Fixture.options Fixture.empty_state)))
  = Ok [100000; 100001; 100002].
Proof.
  apply (get_next_fsid_sequential Fixture.options Fixture.empty_state 3 100000).
  reflexivity.
Defined.

(** C6, as stated, fails: when two calls interleave statement by
    statement, both read [_next_fsid] before either increments it, and both
    return the seed. *)
Lemma get_next_fsid_interleaved_counterexample :
  Threads.run [0; 1; 0; 1; 0; 1]%nat [Threads.AtAssign; Threads.AtAssign] 100000
  = ([Threads.Returned 100000; Threads.Returned 100000], 100002)
  /\ Threads.results [Threads.Returned 100000; Threads.Returned 100000]
     = Some [100000; 100000]
  /\ ~ NoDup [100000; 100000].
Proof.
  split; [reflexivity|]. split; [reflexivity|].
  intros H. apply NoDup_cons in H as [H _]. apply H. now left.
Qed.

(** * Further properties of the program

    What follows is read off the code alone: the codec outside the
    identifiers, the pattern, [open], [readlink], [readdir] with
    [get_ip_list], [get_node_list] in every state, the effect of [read] on
    the object, the constructor, [verify_permissions], the size of a
    rendering, and the time stamps of [getattr]. *)

(** ** The codec beyond the round trip *)

Lemma has_slash_app a b :
  Py.has_slash (a +:+ b) = Py.has_slash a || Py.has_slash b.
Proof.
  induction a as [|c a IH]; [reflexivity|].
  change (String c a +:+ b) with (String c (a +:+ b)).
  cbn [Py.has_slash]. rewrite IH. now rewrite orb_assoc.
Qed.

Lemma in_hex_any_chars c : Spec.is_hex_any c = true -> In c hex_any_chars.
Proof. intros H. apply filter_In. split; [apply in_all_ascii | exact H]. Qed.

Lemma any_case_pairs_checked :
  forallb (fun a => forallb (any_case_pair_ok a) hex_any_chars) hex_any_chars
  = true.
Proof. vm_compute. reflexivity. Qed.

(** A group of two hexadecimal digits of either case *)
Lemma any_case_pair a b :
  Spec.is_hex_any a = true -> Spec.is_hex_any b = true ->
  exists v,
    decode_group (group a b) = Ok (Py.str v)
    /\ encode_segment (Py.str v) = Ok (Spec.upper (group a b))
    /\ has_char "." (Py.str v) = false
    /\ Py.has_slash (Py.str v) = false
    /\ Spec.is_octet (Py.str v) = true.
Proof.
  intros Ha Hb. pose proof any_case_pairs_checked as Hall.
  rewrite forallb_forall in Hall.
  specialize (Hall a (in_hex_any_chars a Ha)).
  rewrite forallb_forall in Hall.
  specialize (Hall b (in_hex_any_chars b Hb)).
  unfold any_case_pair_ok in Hall. unfold decode_group, encode_segment, group.
  destruct (Py.int (String a (String b EmptyString)) 16) as [v|]; [|discriminate].
  repeat (apply andb_true_iff in Hall as [Hall ?]).
  apply String.eqb_eq in Hall.
  exists v.
  match goal with Hd : bool_decide _ = true |- _ =>
    apply bool_decide_eq_true in Hd; rewrite Hd end.
  cbn [mbind result_bind]. rewrite Hall.
  repeat split; try now apply negb_true_iff.
  unfold Spec.is_octet. apply existsb_exists.
  match goal with He : existsb _ _ = true |- _ =>
    apply existsb_exists in He as (n & Hin & Hn) end.
  apply Z.eqb_eq in Hn. subst n. exists v. split; [assumption|apply String.eqb_refl].
Qed.

Lemma hex_any_chars8 s :
  String.length s = 8%nat -> Spec.all_chars Spec.is_hex_any s = true ->
  exists c1 c2 c3 c4 c5 c6 c7 c8,
    s = str8 c1 c2 c3 c4 c5 c6 c7 c8
    /\ Forall (fun c => Spec.is_hex_any c = true) [c1; c2; c3; c4; c5; c6; c7; c8].
Proof.
  intros Hl Hc.
  destruct (length8 s Hl) as (c1 & c2 & c3 & c4 & c5 & c6 & c7 & c8 & ->).
  exists c1, c2, c3, c4, c5, c6, c7, c8. split; [reflexivity|].
  cbn in Hc. repeat (apply andb_true_iff in Hc as [? Hc]).
  repeat constructor; assumption.
Qed.

Lemma dotted_quad_of_octets p1 p2 p3 p4 :
  Spec.is_octet p1 = true -> Spec.is_octet p2 = true ->
  Spec.is_octet p3 = true -> Spec.is_octet p4 = true ->
  Forall (fun p => has_char "." p = false) [p1; p2; p3; p4] ->
  Spec.is_dotted_quad (Py.join "." [p1; p2; p3; p4]) = true.
Proof.
  intros H1 H2 H3 H4 Hd. unfold Spec.is_dotted_quad.
  rewrite (split_join "." [p1; p2; p3; p4]) by (discriminate || assumption).
  now rewrite H1, H2, H3, H4.
Qed.

Lemma hex2ip_any_case s :
  String.length s = 8%nat -> Spec.all_chars Spec.is_hex_any s = true ->
  exists a,
    Codec.hex2ip s = Ok a
    /\ Spec.is_dotted_quad a = true
    /\ Py.has_slash a = false
    /\ Codec.ip2hex a = Ok (Spec.upper s).
Proof.
  intros Hl Hc.
  destruct (hex_any_chars8 s Hl Hc)
    as (c1 & c2 & c3 & c4 & c5 & c6 & c7 & c8 & -> & Hall).
  repeat match goal with Hf : Forall _ (_ :: _) |- _ =>
    inversion Hf; subst; clear Hf end.
  destruct (any_case_pair c1 c2) as (v1 & D1 & E1 & N1 & S1 & O1); [assumption..|].
  destruct (any_case_pair c3 c4) as (v2 & D2 & E2 & N2 & S2 & O2); [assumption..|].
  destruct (any_case_pair c5 c6) as (v3 & D3 & E3 & N3 & S3 & O3); [assumption..|].
  destruct (any_case_pair c7 c8) as (v4 & D4 & E4 & N4 & S4 & O4); [assumption..|].
  exists (Py.join "." [Py.str v1; Py.str v2; Py.str v3; Py.str v4]).
  split; [|split; [|split]].
  - rewrite hex2ip_groups. cbn [map_result]. rewrite D1, D2, D3, D4. reflexivity.
  - apply dotted_quad_of_octets; try assumption. repeat constructor; assumption.
  - cbn [Py.join]. rewrite !has_slash_app, S1, S2, S3, S4. reflexivity.
  - unfold Codec.ip2hex.
    rewrite (split_join "." [Py.str v1; Py.str v2; Py.str v3; Py.str v4]);
      [| discriminate | repeat constructor; assumption].
    fold encode_segment. cbn [map_result]. rewrite E1, E2, E3, E4. reflexivity.
Qed.

(** X1. [hex2ip] accepts eight hexadecimal digits of either case and
    returns a dotted quad of four octets; [ip2hex] of that address is the
    identifier in upper case. *)
Theorem hex2ip_normalises_case s :
  String.length s = 8%nat -> Spec.all_chars Spec.is_hex_any s = true ->
  exists a,
    Codec.hex2ip s = Ok a
    /\ Spec.is_dotted_quad a = true
    /\ Codec.ip2hex a = Ok (Spec.upper s).
Proof.
  intros Hl Hc. destruct (hex2ip_any_case s Hl Hc) as (a & H1 & H2 & _ & H3).
  eauto.
Qed.

Lemma hex2ip_normalises_case_witness :
  exists a,
    Codec.hex2ip "c0a8010f" = Ok a
    /\ Spec.is_dotted_quad a = true
    /\ Codec.ip2hex a = Ok "C0A8010F".
Proof.
  apply (hex2ip_normalises_case "c0a8010f"); reflexivity.
Defined.

Lemma octet_hex_digits n :
  In n Spec.octets ->
  exists a b, Py.fmt_02X n = group a b
    /\ Spec.is_hex_upper a = true /\ Spec.is_hex_upper b = true.
Proof.
  intros Hin. pose proof octets_checked as Hall.
  rewrite forallb_forall in Hall. specialize (Hall n Hin).
  unfold octet_ok in Hall.
  destruct (Py.int (Py.str n) 10) as [v|]; [|discriminate].
  destruct (Py.fmt_02X n) as [|a [|b [|]]]; try discriminate.
  repeat (apply andb_true_iff in Hall as [Hall ?]).
  exists a, b. auto.
Qed.

Lemma ip2hex_dotted_quad_hex8 a :
  Spec.is_dotted_quad a = true ->
  exists s,
    Codec.ip2hex a = Ok s
    /\ Spec.is_hex8 s = true
    /\ Py.node_re_match s = true.
Proof.
  unfold Spec.is_dotted_quad. intros H.
  destruct (Py.split "." a) as [|p1 [|p2 [|p3 [|p4 [|]]]]] eqn:Hs; try discriminate.
  repeat (apply andb_true_iff in H as [H ?]).
  destruct (is_octet_str p1) as (n1 & I1 & ->); [assumption|].
  destruct (is_octet_str p2) as (n2 & I2 & ->); [assumption|].
  destruct (is_octet_str p3) as (n3 & I3 & ->); [assumption|].
  destruct (is_octet_str p4) as (n4 & I4 & ->); [assumption|].
  destruct (octet_hex_digits n1 I1) as (a1 & b1 & F1 & Ha1 & Hb1).
  destruct (octet_hex_digits n2 I2) as (a2 & b2 & F2 & Ha2 & Hb2).
  destruct (octet_hex_digits n3 I3) as (a3 & b3 & F3 & Ha3 & Hb3).
  destruct (octet_hex_digits n4 I4) as (a4 & b4 & F4 & Ha4 & Hb4).
  destruct (octet_facts n1 I1) as (J1 & _).
  destruct (octet_facts n2 I2) as (J2 & _).
  destruct (octet_facts n3 I3) as (J3 & _).
  destruct (octet_facts n4 I4) as (J4 & _).
  assert (Hhex : Spec.is_hex8 (str8 a1 b1 a2 b2 a3 b3 a4 b4) = true).
  { unfold Spec.is_hex8, str8. cbn.
    now rewrite Ha1, Hb1, Ha2, Hb2, Ha3, Hb3, Ha4, Hb4. }
  exists (str8 a1 b1 a2 b2 a3 b3 a4 b4). split; [|split].
  - unfold Codec.ip2hex. rewrite Hs. cbn [map_result].
    rewrite J1, J2, J3, J4. cbn [mbind result_bind].
    rewrite F1, F2, F3, F4. reflexivity.
  - exact Hhex.
  - now apply hex8_matches.
Qed.

(** X2. [ip2hex] of a dotted quad of four octets is a string of eight
    upper-case hexadecimal digits, which the pattern of the router
    matches. *)
Theorem ip2hex_gives_identifier a :
  Spec.is_dotted_quad a = true ->
  exists s,
    Codec.ip2hex a = Ok s
    /\ Spec.is_hex8 s = true
    /\ Py.node_re_match s = true.
Proof. apply ip2hex_dotted_quad_hex8. Qed.

Lemma ip2hex_gives_identifier_witness :
  exists s,
    Codec.ip2hex "10.0.0.255" = Ok s
    /\ Spec.is_hex8 s = true
    /\ Py.node_re_match s = true.
Proof. apply (ip2hex_gives_identifier "10.0.0.255"). reflexivity. Defined.

(** X3. Two different identifiers of eight upper-case hexadecimal digits
    are decoded to different addresses, and two different dotted quads are
    encoded to different identifiers. *)
Theorem codec_injective s1 s2 a1 a2 :
  Spec.is_hex8 s1 = true -> Spec.is_hex8 s2 = true -> s1 <> s2 ->
  Spec.is_dotted_quad a1 = true -> Spec.is_dotted_quad a2 = true -> a1 <> a2 ->
  Codec.hex2ip s1 <> Codec.hex2ip s2
  /\ Codec.ip2hex a1 <> Codec.ip2hex a2.
Proof.
  intros H1 H2 Hs Q1 Q2 Ha. split.
  - destruct (hex2ip_of_hex8 s1 H1) as (b1 & B1 & I1).
    destruct (hex2ip_of_hex8 s2 H2) as (b2 & B2 & I2).
    rewrite B1, B2. intros [= <-]. congruence.
  - destruct (ip2hex_of_dotted_quad a1 Q1) as (h1 & B1 & I1).
    destruct (ip2hex_of_dotted_quad a2 Q2) as (h2 & B2 & I2).
    rewrite B1, B2. intros [= <-]. congruence.
Qed.

Lemma codec_injective_witness :
  Codec.hex2ip "C0A80101" <> Codec.hex2ip "C0A80102"
  /\ Codec.ip2hex "10.0.0.1" <> Codec.ip2hex "10.0.1.0".
Proof.
  apply (codec_injective "C0A80101" "C0A80102" "10.0.0.1" "10.0.1.0");
    (reflexivity || discriminate).
Defined.


Lemma substring_app_l a b i n :
  (i + n <= String.length a)%nat ->
  substring i n (a +:+ b) = substring i n a.
Proof.
  revert i n. induction a as [|c a IH]; intros i n H.
  - cbn in H. assert (i = 0%nat) as -> by lia. assert (n = 0%nat) as -> by lia.
    change (EmptyString +:+ b) with b. now destruct b.
  - cbn [String.length] in H.
    change (String c a +:+ b) with (String c (a +:+ b)).
    destruct i as [|i].
    + destruct n as [|n]; [reflexivity|]. cbn [substring]. f_equal.
      apply IH. lia.
    + cbn [substring]. apply IH. lia.
Qed.

Lemma slice_app_l a b i j :
  0 <= i <= j -> j <= Py.len a ->
  Py.slice (a +:+ b) i j = Py.slice a i j.
Proof.
  intros Hi Hl. replace j with (i + (j - i)) by lia.
  rewrite !slice_window by lia.
  apply substring_app_l. unfold Py.len in Hl. lia.
Qed.

Lemma map_result_ok_all {A B} (f : A -> result B) xs ys :
  map_result f xs = Ok ys -> Forall (fun x => exists y, f x = Ok y) xs.
Proof.
  revert ys. induction xs as [|x xs IH]; intros ys H; [constructor|].
  cbn in H. destruct (f x) as [y|] eqn:Hx; [|discriminate].
  destruct (map_result f xs) as [zs|]; [|discriminate].
  constructor; eauto.
Qed.

Lemma map_result_all_ok {A B} (f : A -> result B) xs :
  Forall (fun x => exists y, f x = Ok y) xs -> exists ys, map_result f xs = Ok ys.
Proof.
  induction 1 as [|x xs [y Hy] _ [ys IH]]; [now exists []|].
  exists (y :: ys). cbn. now rewrite Hy, IH.
Qed.

Lemma hex2ip_short_or_long s :
  (forall t, String.length s = 8%nat ->
             Codec.hex2ip (s +:+ t) = Codec.hex2ip s)
  /\ ((String.length s < 7)%nat ->
      exists lit, Codec.hex2ip s = Raise (ValueError 16 lit)).
Proof.
  split.
  - intros t Hl. unfold Codec.hex2ip.
    assert (Hlen : Py.len s = 8) by (unfold Py.len; lia).
    rewrite (slice_app_l s t 0 2), (slice_app_l s t 2 4),
      (slice_app_l s t 4 6), (slice_app_l s t 6 8) by lia.
    reflexivity.
  - intros Hl. destruct (Codec.hex2ip s) as [a|e] eqn:Hh.
    + exfalso. unfold Codec.hex2ip in Hh.
      destruct (map_result _ _) as [parts|] eqn:Hm; [|discriminate].
      apply map_result_ok_all in Hm.
      rewrite !Forall_cons in Hm. destruct Hm as (_ & _ & _ & [y Hy] & _).
      change 8 with (6 + 2) in Hy. rewrite (slice_window s 6 2) in Hy by lia.
      rewrite substring_past in Hy by (cbn; lia). discriminate.
    + destruct (hex2ip_raises _ _ Hh) as [lit ->]. eauto.
Qed.

(** X4. [hex2ip] looks at the first eight characters only: what follows
    them is ignored; and on fewer than seven characters it raises
    [ValueError], the last group being empty. *)
Theorem hex2ip_reads_eight_characters s t :
  (String.length s = 8%nat -> Codec.hex2ip (s +:+ t) = Codec.hex2ip s)
  /\ ((String.length s < 7)%nat ->
      exists lit, Codec.hex2ip s = Raise (ValueError 16 lit)).
Proof.
  destruct (hex2ip_short_or_long s) as [H1 H2]. auto.
Qed.

Lemma hex2ip_reads_eight_characters_witness :
  Codec.hex2ip "0A0B0C0D-old" = Codec.hex2ip "0A0B0C0D"
  /\ exists lit, Codec.hex2ip "tmp" = Raise (ValueError 16 lit).
Proof.
  split.
  - apply (hex2ip_reads_eight_characters "0A0B0C0D" "-old"). reflexivity.
  - apply (hex2ip_reads_eight_characters "tmp" EmptyString). cbn. lia.
Defined.

Lemma ip2hex_raises a e :
  Codec.ip2hex a = Raise e -> exists lit, e = ValueError 10 lit.
Proof.
  unfold Codec.ip2hex. intros H.
  destruct (map_result _ _) as [parts|e'] eqn:Hm; [discriminate|].
  injection H as ->.
  apply map_result_raises in Hm as (g & _ & Hg).
  destruct (Py.int g 10) as [v|e'] eqn:Hi; [discriminate|].
  injection Hg as ->. apply int_raises in Hi. eauto.
Qed.

(** X5. [ip2hex] returns an identifier exactly when every segment between
    dots is an integer literal, whatever the number of segments and their
    values; otherwise it raises the [ValueError] of [int].  An empty
    segment (an empty address, a dot at either end, two dots in a row) is
    no literal. *)
Theorem ip2hex_returns_iff a :
  ((exists h, Codec.ip2hex a = Ok h)
   <-> Forall (fun seg => exists v, Py.int seg 10 = Ok v) (Py.split "." a))
  /\ ((forall h, Codec.ip2hex a <> Ok h)
      -> exists lit, Codec.ip2hex a = Raise (ValueError 10 lit))
  /\ (In EmptyString (Py.split "." a) ->
      exists lit, Codec.ip2hex a = Raise (ValueError 10 lit)).
Proof.
  assert (Hiff : (exists h, Codec.ip2hex a = Ok h)
     <-> Forall (fun seg => exists v, Py.int seg 10 = Ok v) (Py.split "." a)).
  { unfold Codec.ip2hex. split.
    - intros [h Hh].
      destruct (map_result _ _) as [parts|] eqn:Hm; [|discriminate].
      apply map_result_ok_all in Hm. eapply Forall_impl; [exact Hm|].
      intros seg [y Hy]. cbn in Hy.
      destruct (Py.int seg 10) as [v|]; [eauto|discriminate].
    - intros Hall.
      destruct (map_result_all_ok
                  (fun x => v ← Py.int x 10; Ok (Py.fmt_02X v)) (Py.split "." a))
        as [ys Hys].
      + eapply Forall_impl; [exact Hall|]. intros seg [v Hv]. cbn.
        rewrite Hv. eauto.
      + rewrite Hys. eauto. }
  assert (Hno : (forall h, Codec.ip2hex a <> Ok h)
                -> exists lit, Codec.ip2hex a = Raise (ValueError 10 lit)).
  { intros Hn. destruct (Codec.ip2hex a) as [h|e] eqn:He.
    - now destruct (Hn h).
    - destruct (ip2hex_raises _ _ He) as [lit ->]. eauto. }
  split; [exact Hiff|]. split; [exact Hno|].
  intros Hin. apply Hno. intros h Hh.
  assert (Hex : exists h, Codec.ip2hex a = Ok h) by eauto.
  apply Hiff in Hex. rewrite Forall_forall in Hex.
  apply list_elem_of_In in Hin. destruct (Hex _ Hin) as [v Hv]. discriminate.
Qed.

Lemma ip2hex_returns_iff_witness :
  exists lit, Codec.ip2hex "10.0..1" = Raise (ValueError 10 lit).
Proof.
  apply (ip2hex_returns_iff "10.0..1"). cbn. auto.
Defined.

Example ip2hex_unchecked :
  Codec.ip2hex "300.1" = Ok "12C01" /\ Codec.ip2hex "-1.2.3" = Ok "-10203".
Proof. split; reflexivity. Qed.

(** ** The pattern, [open] and [readlink] *)

Lemma match_class_spec n : forall s rest,
  Py.match_class n s = Some rest
  <-> exists t, String.length t = n /\ Spec.all_chars Py.in_class t = true
                /\ s = t +:+ rest.
Proof.
  induction n as [|n IH]; intros s rest.
  - cbn. split.
    + intros [= ->]. exists EmptyString. auto.
    + intros (t & Hl & _ & ->). destruct t; [reflexivity|discriminate].
  - split.
    + cbn [Py.match_class]. destruct s as [|c r]; [discriminate|].
      destruct (Py.in_class c) eqn:Hc; [|discriminate].
      intros H. apply IH in H as (t & Hl & Ht & ->).
      exists (String c t). cbn. rewrite Hc, Ht, Hl. auto.
    + intros (t & Hl & Ht & ->). destruct t as [|c t]; [discriminate|].
      cbn in Ht. apply andb_true_iff in Ht as [Hc Ht].
      change (String c t +:+ rest) with (String c (t +:+ rest)).
      cbn [Py.match_class]. rewrite Hc. apply IH. exists t. cbn in Hl.
      auto with lia.
Qed.

Lemma app_empty_r (s : string) : s +:+ EmptyString = s.
Proof.
  induction s as [|c s IH]; [reflexivity|].
  change (String c (s +:+ EmptyString) = String c s). now rewrite IH.
Qed.

(** X6. The compiled pattern matches exactly the strings of eight
    characters of [A-Z0-9] and the same followed by one newline (the [$] of
    Python stops before a final newline); so [open] accepts a path whose
    last component is an identifier and a newline. *)
Theorem pattern_matches_iff s path flags st :
  (Py.node_re_match s = true
   <-> Spec.is_shape8 s = true
       \/ exists t, Spec.is_shape8 t = true
                    /\ s = t +:+ String Py.newline EmptyString)
  /\ open path flags st
     = (Ok (if Py.node_re_match (Py.basename path) then 0 else -1), st).
Proof.
  split.
  - unfold Py.node_re_match, Spec.is_shape8. split.
    + destruct (Py.match_class 8 s) as [rest|] eqn:Hm; [|discriminate].
      apply match_class_spec in Hm as (t & Hl & Ht & ->).
      intros H. apply orb_true_iff in H as [H|H]; apply String.eqb_eq in H;
        subst rest.
      * left. rewrite app_empty_r, Hl, Ht. reflexivity.
      * right. exists t. now rewrite Hl, Ht.
    + intros [H|(t & H & ->)]; apply andb_true_iff in H as [Hl Hc];
        apply Nat.eqb_eq in Hl.
      * assert (Hm : Py.match_class 8 s = Some EmptyString).
        { apply match_class_spec. exists s. now rewrite app_empty_r. }
        now rewrite Hm.
      * assert (Hm : Py.match_class 8 (t +:+ String Py.newline EmptyString)
                     = Some (String Py.newline EmptyString)).
        { apply match_class_spec. exists t. auto. }
        rewrite Hm. reflexivity.
  - unfold open. destruct (Py.node_re_match (Py.basename path)); reflexivity.
Qed.

Example open_newline :
  fst (open (String.append "/0A0B0C0D" (String Py.newline EmptyString)) 0
         Fixture.empty_state) = Ok 0.
Proof. reflexivity. Qed.

(** X7. [open], [getattr] and [read] agree outside [/by-ip/]: [open]
    returns 0 exactly when [getattr] reports a regular file; and a path
    that [open] refuses with -1 is read as the empty string, without any
    change to the object or the system. *)
Theorem open_agrees_with_getattr_and_read E s path flags length offset :
  (String.prefix "/by-ip/" path = false ->
   (fst (open path flags s) = Ok 0
    <-> exists st, fst (getattr E path s) = Ok (AStat st)
                   /\ Z.land (st_mode st) S_IFMT = S_IFREG))
  /\ (fst (open path flags s) = Ok (-1) ->
      read E path length offset s = (Ok EmptyString, s)).
Proof.
  split.
  - intros Hlink. unfold open, getattr.
    rewrite (bind_ok _ _ s (obj s) s) by reflexivity.
    unfold Py.startswith. rewrite Hlink. cbn [andb].
    destruct (String.eqb path "/" || String.eqb path "/by-ip") eqn:Hroot.
    + assert (Hno : Py.node_re_match (Py.basename path) = false).
      { apply orb_true_iff in Hroot as [H|H]; apply String.eqb_eq in H;
          subst path; reflexivity. }
      rewrite Hno. cbn. split; [discriminate|].
      intros (st & [= <-] & Hmode). discriminate.
    + destruct (Py.node_re_match (Py.basename path)); cbn.
      * split; [|reflexivity]. intros _. eexists. split; reflexivity.
      * split; [discriminate|]. intros (st & [=] & _).
  - unfold open, read.
    destruct (Py.node_re_match (Py.basename path)); [discriminate|reflexivity].
Qed.

Lemma open_agrees_with_getattr_and_read_witness :
  (exists st, fst (getattr Fixture.env_ok "/x/0A0B0C0D" Fixture.empty_state)
              = Ok (AStat st)
              /\ Z.land (st_mode st) S_IFMT = S_IFREG)
  /\ read Fixture.env_ok "/0a0b0c0d" 10 0 Fixture.empty_state
     = (Ok EmptyString, Fixture.empty_state).
Proof.
  split.
  - apply (open_agrees_with_getattr_and_read Fixture.env_ok Fixture.empty_state
             "/x/0A0B0C0D" 0 10 0); reflexivity.
  - apply (open_agrees_with_getattr_and_read Fixture.env_ok Fixture.empty_state
             "/0a0b0c0d" 0 10 0). reflexivity.
Defined.

(** *** Paths *)

Lemma basename_no_slash t : Py.has_slash t = false -> Py.basename t = t.
Proof.
  destruct t as [|c r]; [reflexivity|]. cbn [Py.has_slash Py.basename].
  intros H. apply orb_false_iff in H as [Hc Hr]. now rewrite Hr, Hc.
Qed.

(** What follows the last slash is the base name. *)
Lemma basename_after_slash p t :
  Py.has_slash t = false -> Py.basename (p +:+ String "/" t) = t.
Proof.
  intros Ht. induction p as [|c p IH].
  - change (EmptyString +:+ String "/" t) with (String "/" t).
    cbn [Py.basename]. rewrite Ht. reflexivity.
  - change (String c p +:+ String "/" t) with (String c (p +:+ String "/" t)).
    cbn [Py.basename]. rewrite has_slash_app. cbn [Py.has_slash].
    rewrite Ascii.eqb_refl. cbn [orb]. rewrite orb_true_r. exact IH.
Qed.

Lemma has_slash_basename p : Py.has_slash (Py.basename p) = false.
Proof.
  induction p as [|c r IH]; [reflexivity|]. cbn [Py.basename].
  destruct (Py.has_slash r) eqn:Hr; [exact IH|].
  destruct (Ascii.eqb c "/") eqn:Hc; [exact Hr|].
  cbn [Py.has_slash]. now rewrite Hc, Hr.
Qed.





Lemma hex_upper_any c : Spec.is_hex_upper c = true -> Spec.is_hex_any c = true.
Proof.
  unfold Spec.is_hex_upper, Spec.is_hex_any. intros H. now rewrite H.
Qed.

Lemma hex8_any s :
  Spec.is_hex8 s = true ->
  String.length s = 8%nat /\ Spec.all_chars Spec.is_hex_any s = true.
Proof.
  unfold Spec.is_hex8. intros H. apply andb_true_iff in H as [Hl Hc].
  apply Nat.eqb_eq in Hl. split; [exact Hl|]. clear Hl.
  induction s as [|c r IH]; [reflexivity|]. cbn in *.
  apply andb_true_iff in Hc as [Hc Hr]. now rewrite (hex_upper_any c Hc), IH.
Qed.

Lemma hex8_no_slash s : Spec.is_hex8 s = true -> Py.has_slash s = false.
Proof.
  unfold Spec.is_hex8. intros H. apply andb_true_iff in H as [_ Hc].
  induction s as [|c r IH]; [reflexivity|]. cbn in *.
  apply andb_true_iff in Hc as [Hc Hr]. rewrite (IH Hr), orb_false_r.
  destruct (Ascii.eqb_spec c "/") as [->|]; [discriminate Hc|reflexivity].
Qed.

(** An address and the identifier it encodes to *)
Lemma dotted_quad_identifier a :
  Spec.is_dotted_quad a = true ->
  exists id,
    Codec.ip2hex a = Ok id /\ Spec.is_hex8 id = true
    /\ Codec.hex2ip id = Ok a /\ Py.has_slash a = false.
Proof.
  intros Ha. destruct (ip2hex_of_dotted_quad a Ha) as (id & Hid & Hback).
  destruct (ip2hex_dotted_quad_hex8 a Ha) as (id' & Hid' & Hhex & _).
  rewrite Hid in Hid'. injection Hid' as <-.
  exists id. repeat split; try assumption.
  destruct (hex8_any id Hhex) as [Hl Hc].
  destruct (hex2ip_any_case id Hl Hc) as (a' & Ha' & _ & Hs & _).
  rewrite Hback in Ha'. now injection Ha' as <-.
Qed.

(** X8. [readlink] of ['/by-ip/<address>'] for a dotted quad returns the
    path of the node directory entry named by the identifier of the
    address, which [hex2ip] decodes back to it; nothing is changed, and the
    target is not looked up.  A path that does not start with ['/by-ip']
    resolves to ['.'].  A path that starts with ['/by-ip'] and whose last
    component [ip2hex] refuses, as for ['/by-ip'] itself, raises
    [ValueError]. *)
Theorem readlink_resolves s a path :
  (Spec.is_dotted_quad a = true ->
   exists id,
     readlink ("/by-ip/" +:+ a) s
     = (Ok (Py.path_join (conf_node_dir (obj s)) id), s)
     /\ Spec.is_hex8 id = true
     /\ Codec.hex2ip id = Ok a)
  /\ (String.prefix "/by-ip" path = false -> readlink path s = (Ok ".", s))
  /\ (String.prefix "/by-ip" path = true ->
      (forall h, Codec.ip2hex (Py.basename path) <> Ok h) ->
      exists lit, readlink path s = (Raise (ValueError 10 lit), s)).
Proof.
  split; [|split].
  - intros Ha. destruct (dotted_quad_identifier a Ha) as (id & Hid & Hhex & Hback & Hs).
    exists id. split; [|auto]. unfold readlink.
    change (Py.startswith ("/by-ip/" +:+ a) "/by-ip") with true. cbv iota.
    change ("/by-ip/" +:+ a) with ("/by-ip" +:+ String "/" a).
    rewrite basename_after_slash by exact Hs. rewrite Hid. reflexivity.
  - intros Hp. unfold readlink, Py.startswith. now rewrite Hp.
  - intros Hp Hno. unfold readlink, Py.startswith. rewrite Hp.
    destruct (Codec.ip2hex (Py.basename path)) as [h|e] eqn:He.
    + now destruct (Hno h).
    + destruct (ip2hex_raises _ _ He) as [lit ->]. exists lit. reflexivity.
Qed.

Lemma readlink_resolves_witness :
  (exists id,
     readlink "/by-ip/192.168.1.1" Fixture.empty_state
     = (Ok (Py.path_join "/srv/nodes" id), Fixture.empty_state)
     /\ Spec.is_hex8 id = true
     /\ Codec.hex2ip id = Ok "192.168.1.1")
  /\ readlink "/0A0B0C0D" Fixture.empty_state = (Ok ".", Fixture.empty_state)
  /\ exists lit,
       readlink "/by-ip" Fixture.empty_state
       = (Raise (ValueError 10 lit), Fixture.empty_state).
Proof.
  split; [|split].
  - apply (readlink_resolves Fixture.empty_state "192.168.1.1" "/by-ip").
    reflexivity.
  - apply (readlink_resolves Fixture.empty_state "192.168.1.1" "/0A0B0C0D").
    reflexivity.
  - apply (readlink_resolves Fixture.empty_state "192.168.1.1" "/by-ip").
    + reflexivity.
    + intros h. discriminate.
Defined.

(** ** [get_node_list], however it ends *)

Lemma rmdir_cases E p w :
  (OS.fs w !! p = Some OS.KDir
   /\ OS.rmdir E p w = (Ok tt, OS.World (delete p (OS.fs w)) (OS.trace w)))
  \/ (exists errno text, OS.rmdir E p w = (Raise (OSError errno text), w)).
Proof.
  unfold OS.rmdir, OS.os_error.
  destruct (OS.fs w !! p) as [[]|]; eauto.
  destruct (OS.entries_under w p); eauto.
  destruct (OS.rmdir_error E p) as [[errno text]|]; eauto.
Qed.

Lemma listdir_cases E w d :
  OS.listdir E w d = Ok (map Py.basename (OS.entries_under w d))
  \/ (exists errno text, OS.listdir E w d = Raise (OSError errno text)).
Proof.
  unfold OS.listdir, OS.os_error.
  destruct (OS.fs w !! d) as [[]|]; eauto;
    destruct (OS.listdir_error E d) as [[errno text]|]; eauto.
Qed.

Lemma listdir_ok_can_list E w d names :
  OS.listdir E w d = Ok names -> Spec.can_list E w d = true.
Proof.
  unfold OS.listdir, Spec.can_list, OS.path_isdir.
  destruct (OS.fs w !! d) as [[]|]; try discriminate;
    destruct (OS.listdir_error E d) as [[errno text]|]; try discriminate;
    reflexivity.
Qed.

Lemma get_node_list_loop_any E o t ps :
  forall m nodes,
    Forall (fun p => OS.child_of (conf_node_dir o) p = true) ps ->
    exists r m',
      get_node_list_loop E (map Py.basename ps) nodes (State o (OS.World m t))
      = (r, State o (OS.World m' t))
      /\ (forall q,
            m' !! q = m !! q
            \/ (m' !! q = None /\ m !! q = Some OS.KDir /\ In q ps))
      /\ match r with
         | Ok l =>
             l = (nodes ++ map Py.basename
                             (List.filter (OS.path_ismount (OS.World m t)) ps))%list
             /\ forall q, In q ps ->
                  m !! q <> Some OS.KLinkDir
                  /\ (m !! q = Some OS.KDir -> m' !! q = None)
         | Raise e => exists errno text, e = OSError errno text
         end.
Proof.
  induction ps as [|p ps IH]; intros m nodes Hch.
  - exists (Ok nodes), m. split; [reflexivity|]. split; [auto|].
    split; [now rewrite app_nil_r | intros q []].
  - inversion Hch as [|? ? Hc Hch']; subst.
    cbn [map get_node_list_loop].
    rewrite (bind_ok _ _ _ o _) by reflexivity.
    rewrite (child_of_join _ _ Hc).
    rewrite (bind_ok _ _ _ (OS.path_ismount (OS.World m t) p) _) by reflexivity.
    cbn [List.filter].
    destruct (OS.path_ismount (OS.World m t) p) eqn:Hmount.
    + destruct (IH m (nodes ++ [Py.basename p])%list Hch')
        as (r & m' & Hrun & Hm' & Hr).
      exists r, m'. split; [exact Hrun|]. split.
      * intros q. destruct (Hm' q) as [H|(H1 & H2 & H3)]; [now left|].
        right. repeat split; [assumption..|now right].
      * destruct r as [l|e]; [|exact Hr]. destruct Hr as [-> Hr].
        split; [cbn [map]; now rewrite <- app_assoc|].
        intros q [<-|Hin]; [|now apply Hr].
        unfold OS.path_ismount in Hmount. cbn [OS.fs] in Hmount.
        destruct (m !! p) as [[]|]; try discriminate.
        split; discriminate.
    + rewrite (bind_ok _ _ _ (OS.path_isdir (OS.World m t) p) _) by reflexivity.
      destruct (OS.path_isdir (OS.World m t) p) eqn:Hdir.
      * destruct (rmdir_cases E p (OS.World m t)) as [[Hk Hrm]|(errno & text & Hrm)].
        -- cbn [OS.fs OS.trace] in Hk, Hrm.
           assert (Hdo : do_os (OS.rmdir E p) (State o (OS.World m t))
                         = (Ok tt, State o (OS.World (delete p m) t))).
           { unfold do_os. cbn [os obj]. now rewrite Hrm. }
           rewrite (bind_ok _ _ _ _ _ Hdo).
           destruct (IH (delete p m) nodes Hch') as (r & m' & Hrun & Hm' & Hr).
           exists r, m'. split; [exact Hrun|]. split.
           ++ intros q. destruct (decide (q = p)) as [->|Hne].
              ** right. repeat split; [|exact Hk|now left].
                 destruct (Hm' p) as [H|[H _]]; [|exact H].
                 now rewrite H, lookup_delete_eq.
              ** destruct (Hm' q) as [H|(H1 & H2 & H3)].
                 --- left. now rewrite H, lookup_delete_ne.
                 --- right. rewrite lookup_delete_ne in H2 by congruence.
                     repeat split; [assumption..|now right].
           ++ destruct r as [l|e]; [|exact Hr]. destruct Hr as [-> Hr].
              split.
              ** do 2 f_equal. apply filter_ext. intros q.
                 unfold OS.path_ismount. cbn [OS.fs].
                 destruct (decide (q = p)) as [->|Hne].
                 --- now rewrite lookup_delete_eq, Hk.
                 --- now rewrite lookup_delete_ne.
              ** intros q Hin. destruct (decide (q = p)) as [->|Hne].
                 --- split; [now rewrite Hk|]. intros _.
                     destruct (Hm' p) as [H|[H _]]; [|exact H].
                     now rewrite H, lookup_delete_eq.
                 --- destruct Hin as [<-|Hin]; [congruence|].
                     destruct (Hr q Hin) as [H1 H2].
                     rewrite lookup_delete_ne in H1, H2 by congruence. auto.
        -- exists (Raise (OSError errno text)), m. split.
           ++ erewrite bind_raise; [reflexivity|].
              unfold do_os. cbn [os obj]. now rewrite Hrm.
           ++ split; [auto|eauto].
      * destruct (IH m nodes Hch') as (r & m' & Hrun & Hm' & Hr).
        exists r, m'. split; [exact Hrun|]. split.
        -- intros q. destruct (Hm' q) as [H|(H1 & H2 & H3)]; [now left|].
           right. repeat split; [assumption..|now right].
        -- destruct r as [l|e]; [|exact Hr]. destruct Hr as [-> Hr].
           split; [reflexivity|].
           intros q [<-|Hin]; [|now apply Hr].
           unfold OS.path_isdir in Hdir. cbn [OS.fs] in Hdir.
           destruct (m !! p) as [[]|]; try discriminate; split; discriminate.
Qed.

Lemma entries_child_of w d :
  Forall (fun p => OS.child_of d p = true) (OS.entries_under w d).
Proof.
  apply Forall_forall. intros p Hin%list_elem_of_In.
  now apply in_entries_under in Hin as [Hc _].
Qed.

(** [get_node_list] in any state *)
Lemma get_node_list_any E s :
  exists r m',
    get_node_list E s = (r, State (obj s) (OS.World m' (OS.trace (os s))))
    /\ (forall q,
          m' !! q = OS.fs (os s) !! q
          \/ (m' !! q = None /\ OS.fs (os s) !! q = Some OS.KDir
              /\ OS.child_of (conf_node_dir (obj s)) q = true))
    /\ match r with
       | Ok l =>
           l = Spec.mounted_nodes s
           /\ Spec.can_list E (os s) (conf_node_dir (obj s)) = true
           /\ forall q, In q (OS.entries_under (os s) (conf_node_dir (obj s))) ->
                OS.fs (os s) !! q <> Some OS.KLinkDir
                /\ (OS.fs (os s) !! q = Some OS.KDir -> m' !! q = None)
       | Raise e => exists errno text, e = OSError errno text
       end.
Proof.
  destruct s as [o [m t]].
  destruct (listdir_cases E (OS.World m t) (conf_node_dir o))
    as [Hls|(errno & text & Hls)].
  2:{ exists (Raise (OSError errno text)), m. split; [|split; [auto|eauto]].
      unfold get_node_list.
      rewrite (bind_ok _ _ _ o _) by reflexivity.
      erewrite bind_raise; [reflexivity|].
      unfold do_os. cbn [os obj]. now rewrite Hls. }
  destruct (get_node_list_loop_any E o t
              (OS.entries_under (OS.World m t) (conf_node_dir o)) m [])
    as (r & m' & Hrun & Hm' & Hr); [apply entries_child_of|].
  exists r, m'. split; [|split].
  - unfold get_node_list.
    rewrite (bind_ok _ _ _ o _) by reflexivity.
    rewrite (bind_ok _ _ (State o (OS.World m t))
               (map Py.basename (OS.entries_under (OS.World m t) (conf_node_dir o)))
               (State o (OS.World m t)))
      by (unfold do_os; cbn [os obj]; now rewrite Hls).
    exact Hrun.
  - intros q. cbn [obj os OS.fs].
    destruct (Hm' q) as [H|(H1 & H2 & H3)]; [now left|].
    right. repeat split; [assumption..|].
    now apply in_entries_under in H3 as [Hc _].
  - destruct r as [l|e]; [|exact Hr]. destruct Hr as [-> Hr].
    split; [|split; [|exact Hr]].
    + cbn [app]. unfold Spec.mounted_nodes.
      cbn [obj os]. apply filter_map_basename, entries_child_of.
    + cbn [obj os]. now apply listdir_ok_can_list in Hls.
Qed.

(** X9. However [get_node_list] ends, the only paths it removes are plain
    directories that are entries of the node directory; every other path,
    mount points and files included, keeps its kind, no command is issued
    and the object is not changed.  When it raises, it raises [OSError];
    when it returns, it returns the mount points among the entries. *)
Theorem get_node_list_only_removes_orphans E s :
  exists r m',
    get_node_list E s = (r, State (obj s) (OS.World m' (OS.trace (os s))))
    /\ (forall q,
          m' !! q = OS.fs (os s) !! q
          \/ (m' !! q = None /\ OS.fs (os s) !! q = Some OS.KDir
              /\ OS.child_of (conf_node_dir (obj s)) q = true))
    /\ (forall e, r = Raise e -> exists errno text, e = OSError errno text)
    /\ (forall l, r = Ok l -> l = Spec.mounted_nodes s).
Proof.
  destruct (get_node_list_any E s) as (r & m' & Hrun & Hm' & Hr).
  exists r, m'. split; [exact Hrun|]. split; [exact Hm'|]. split.
  - intros e ->. exact Hr.
  - intros l ->. apply Hr.
Qed.

Lemma NoDup_map_basename d ps :
  Forall (fun p => OS.child_of d p = true) ps ->
  NoDup ps -> NoDup (map Py.basename ps).
Proof.
  induction 1 as [|p ps Hc Hch IH]; intros Hnd; [constructor|].
  apply NoDup_cons in Hnd as [Hnotin Hnd]. cbn [map].
  apply NoDup_cons. split; [|now apply IH].
  intros Hin%list_elem_of_In%in_map_iff. destruct Hin as (q & Hq & Hin).
  apply Hnotin, list_elem_of_In.
  rewrite Forall_forall in Hch.
  apply list_elem_of_In in Hin. pose proof (Hch q Hin) as Hcq.
  rewrite <- (child_of_join d p Hc), <- Hq, (child_of_join d q Hcq).
  now apply list_elem_of_In.
Qed.

Lemma in_mounted_nodes s n :
  In n (Spec.mounted_nodes s)
  <-> exists p, Py.basename p = n
        /\ OS.child_of (conf_node_dir (obj s)) p = true
        /\ OS.fs (os s) !! p = Some OS.KMount.
Proof.
  unfold Spec.mounted_nodes.
  rewrite <- (filter_map_basename (conf_node_dir (obj s))
                (OS.path_ismount (os s))) by apply entries_child_of.
  rewrite in_map_iff. split.
  - intros (p & Hb & Hin). apply filter_In in Hin as [Hin Hm].
    apply in_entries_under in Hin as [Hc _].
    exists p. repeat split; try assumption.
    unfold OS.path_ismount in Hm. now destruct (OS.fs (os s) !! p) as [[]|].
  - intros (p & Hb & Hc & Hk). exists p. split; [exact Hb|].
    apply filter_In. split.
    + apply in_entries_under. split; [exact Hc|]. eauto.
    + unfold OS.path_ismount. now rewrite Hk.
Qed.

Lemma NoDup_mounted_nodes s : NoDup (Spec.mounted_nodes s).
Proof.
  unfold Spec.mounted_nodes.
  rewrite <- (filter_map_basename (conf_node_dir (obj s))
                (OS.path_ismount (os s))) by apply entries_child_of.
  apply (NoDup_map_basename (conf_node_dir (obj s))).
  - apply Forall_forall. intros p Hin%list_elem_of_In%filter_In.
    destruct Hin as [Hin _]. now apply in_entries_under in Hin as [Hc _].
  - apply NoDup_ListNoDup, List.NoDup_filter, NoDup_ListNoDup,
      NoDup_entries_under.
Qed.

(** An entry of a directory is longer than the directory. *)
Lemma path_join_length d name :
  Py.has_slash name = false ->
  (String.length d + String.length name <= String.length (Py.path_join d name))%nat.
Proof.
  intros Hn. unfold Py.path_join.
  assert (Hp : String.prefix "/" name = false).
  { destruct name as [|c r]; [reflexivity|]. cbn [Py.has_slash] in Hn.
    apply orb_false_iff in Hn as [Hc _]. cbn [String.prefix].
    destruct (ascii_dec "/" c) as [<-|]; [discriminate Hc|reflexivity]. }
  rewrite Hp.
  destruct (String.eqb d EmptyString || Py.endswith_slash d);
    rewrite !length_app; cbn [String.length]; lia.
Qed.

Lemma child_of_longer d p :
  OS.child_of d p = true -> (String.length d < String.length p)%nat.
Proof.
  intros Hc. pose proof (child_of_join d p Hc) as Hj.
  unfold OS.child_of in Hc. apply andb_true_iff in Hc as [_ Hb].
  apply negb_true_iff, String.eqb_neq in Hb.
  pose proof (path_join_length d (Py.basename p) (has_slash_basename p)) as Hl.
  rewrite Hj in Hl.
  destruct (Py.basename p) as [|c r]; [congruence|]. cbn [String.length] in Hl. lia.
Qed.

Lemma child_of_irrefl d : OS.child_of d d = false.
Proof.
  destruct (OS.child_of d d) eqn:Hc; [|reflexivity].
  apply child_of_longer in Hc. lia.
Qed.

(** [get_node_list] where the clean-up has nothing to refuse *)
Lemma get_node_list_run E s :
  Spec.can_list E (os s) (conf_node_dir (obj s)) = true ->
  Spec.orphans_removable E (os s) (conf_node_dir (obj s)) = true ->
  exists m',
    get_node_list E s
    = (Ok (Spec.mounted_nodes s), State (obj s) (OS.World m' (OS.trace (os s)))).
Proof.
  destruct s as [o [m t]]. cbn [obj os OS.trace]. intros Hls Hok.
  destruct (get_node_list_loop_run E o t
              (OS.entries_under (OS.World m t) (conf_node_dir o)) m [])
    as (m' & Hrun & _).
  - apply NoDup_entries_under.
  - apply entries_child_of.
  - apply Forall_forall. intros p Hin%list_elem_of_In.
    unfold Spec.orphans_removable in Hok. rewrite forallb_forall in Hok.
    now apply Hok.
  - exists m'. unfold get_node_list.
    rewrite (bind_ok _ _ _ o _) by reflexivity.
    rewrite (bind_ok _ _ (State o (OS.World m t))
               (map Py.basename (OS.entries_under (OS.World m t) (conf_node_dir o)))
               (State o (OS.World m t)))
      by (unfold do_os; cbn [os obj]; now rewrite (listdir_can_list E _ _ Hls)).
    rewrite Hrun. cbn [app]. unfold Spec.mounted_nodes. cbn [obj os].
    now rewrite (filter_map_basename (conf_node_dir o)) by apply entries_child_of.
Qed.

(** X10. After a call of [get_node_list] that returned, a second call
    returns the same nodes (in the order the system lists them now) and
    changes nothing: the clean-up is done once. *)
Theorem get_node_list_twice E s l s1 :
  get_node_list E s = (Ok l, s1) ->
  exists l',
    get_node_list E s1 = (Ok l', s1)
    /\ l' ≡ₚ l.
Proof.
  intros Hrun. destruct (get_node_list_any E s) as (r & m' & Hrun' & Hm' & Hr).
  rewrite Hrun in Hrun'. injection Hrun' as <- ->. destruct Hr as (-> & Hls & Hr).
  set (s1 := State (obj s) (OS.World m' (OS.trace (os s)))).
  assert (Hkept : forall q,
            In q (OS.entries_under (os s1) (conf_node_dir (obj s1))) ->
            m' !! q = OS.fs (os s) !! q
            /\ OS.fs (os s) !! q <> Some OS.KDir
            /\ OS.fs (os s) !! q <> Some OS.KLinkDir).
  { intros q Hin. apply in_entries_under in Hin as [Hc [k Hk]].
    cbn [s1 os obj OS.fs] in Hc, Hk.
    destruct (Hm' q) as [H|[H _]]; [|congruence].
    assert (Hin : In q (OS.entries_under (os s) (conf_node_dir (obj s)))).
    { apply in_entries_under. split; [exact Hc|]. rewrite <- H. eauto. }
    destruct (Hr q Hin) as [H1 H2]. repeat split; try assumption.
    intros Hd. rewrite (H2 Hd) in Hk. discriminate. }
  assert (Hls1 : Spec.can_list E (os s1) (conf_node_dir (obj s1)) = true).
  { cbn [s1 os obj]. unfold Spec.can_list, OS.path_isdir in Hls |- *.
    cbn [OS.fs]. destruct (Hm' (conf_node_dir (obj s))) as [->|(_ & _ & Hc)].
    - exact Hls.
    - now rewrite child_of_irrefl in Hc. }
  assert (Hok1 : Spec.orphans_removable E (os s1) (conf_node_dir (obj s1)) = true).
  { apply forallb_forall. intros q Hin.
    destruct (Hkept q Hin) as (E1 & E2 & E3).
    unfold Spec.orphan_ok, OS.path_ismount, OS.path_isdir. cbn [s1 os OS.fs].
    rewrite E1. destruct (OS.fs (os s) !! q) as [[]|]; congruence. }
  destruct (get_node_list_run E s1 Hls1 Hok1) as (m3 & Hrun3).
  destruct (get_node_list_any E s1) as (r2 & m2 & Hrun2 & Hm2 & _).
  assert (Hsame : m2 = m').
  { apply map_eq. intros q. destruct (Hm2 q) as [H|(H1 & H2 & H3)]; [exact H|].
    cbn [s1 os obj OS.fs] in H2, H3. exfalso.
    destruct (Hkept q) as (E1 & E2 & _).
    - apply in_entries_under. split; [exact H3|]. cbn [s1 os OS.fs]. eauto.
    - congruence. }
  subst m2. rewrite Hrun3 in Hrun2. injection Hrun2 as <- ->.
  exists (Spec.mounted_nodes s1). split; [exact Hrun3|].
  apply NoDup_Permutation; [apply NoDup_mounted_nodes..|].
  intros n. rewrite !list_elem_of_In, !in_mounted_nodes.
  split; intros (p & Hb & Hc & Hk); exists p; repeat split; try assumption.
  - cbn [s1 os OS.fs] in Hk. destruct (Hm' p) as [H|[H _]]; congruence.
  - cbn [s1 os OS.fs]. destruct (Hm' p) as [H|(_ & H & _)]; congruence.
Qed.

Lemma get_node_list_twice_witness :
  exists l',
    get_node_list Fixture.env_ok (snd (get_node_list Fixture.env_ok Fixture.tidy_state))
    = (Ok l', snd (get_node_list Fixture.env_ok Fixture.tidy_state))
    /\ l' ≡ₚ ["0A0B0C0D"].
Proof.
  apply (get_node_list_twice Fixture.env_ok Fixture.tidy_state). reflexivity.
Defined.

(** ** [readdir] *)

(** X11. [readdir] ignores its offset.  Any path but ['/'] and ['/by-ip']
    yields ['.'] and ['..'] only and changes nothing.  For ['/'], when it
    returns, it yields ['.'], ['..'], ['by-ip'] and then the mount points
    of the node directory, so ['by-ip'] is listed even without nodes; it
    issues no command and leaves the object alone, and what it raises is
    the [OSError] of the listing or of the clean-up. *)
Theorem readdir_root_and_elsewhere E s path offset :
  ((path <> "/" -> path <> "/by-ip" ->
    readdir E path offset s = (Ok ["."; ".."], s)))
  /\ exists r s1,
       readdir E "/" offset s = (r, s1)
       /\ obj s1 = obj s
       /\ OS.trace (os s1) = OS.trace (os s)
       /\ (forall l, r = Ok l ->
             l = ("." :: ".." :: "by-ip" :: Spec.mounted_nodes s))
       /\ (forall e, r = Raise e -> exists errno text, e = OSError errno text).
Proof.
  split.
  - intros H1 H2. unfold readdir.
    apply String.eqb_neq in H1, H2. rewrite H1, H2. reflexivity.
  - destruct (get_node_list_any E s) as (r & m' & Hrun & _ & Hr).
    unfold readdir. change (String.eqb "/" "/") with true. cbv iota.
    destruct r as [l|e].
    + destruct Hr as [-> _]. do 2 eexists. split.
      * rewrite (bind_ok _ _ _ _ _ (bind_ok _ _ _ _ _ Hrun)). reflexivity.
      * repeat split; try reflexivity.
        -- intros l [= <-]. reflexivity.
        -- intros e [=].
    + do 2 eexists. split.
      * rewrite (bind_raise _ _ _ _ _ (bind_raise _ _ _ _ _ Hrun)). reflexivity.
      * repeat split; try reflexivity.
        -- intros l [=].
        -- intros e' [= <-]. exact Hr.
Qed.

Lemma readdir_root_and_elsewhere_witness :
  readdir Fixture.env_ok "/nope" 7 Fixture.tidy_state
  = (Ok ["."; ".."], Fixture.tidy_state).
Proof.
  apply (readdir_root_and_elsewhere Fixture.env_ok Fixture.tidy_state "/nope" 7);
    discriminate.
Defined.

Example readdir_root_empty :
  fst (readdir Fixture.env_ok "/" 0 Fixture.started_state)
  = Ok ["."; ".."; "by-ip"].
Proof. reflexivity. Qed.

Lemma readdir_by_ip_run E s offset :
  readdir E "/by-ip" offset s
  = match get_node_list E s with
    | (Ok nodes, s1) =>
        (match map_result (fun node => Codec.hex2ip (Py.basename node)) nodes with
         | Ok ips => Ok ("." :: ".." :: ips)
         | Raise e => Raise e
         end, s1)
    | (Raise e, s1) => (Raise e, s1)
    end.
Proof.
  unfold readdir, get_ip_list. change (String.eqb "/by-ip" "/") with false.
  change (String.eqb "/by-ip" "/by-ip") with true. cbv iota.
  unfold bind, lift, ret.
  destruct (get_node_list E s) as [[nodes|e] s1]; [|reflexivity].
  destruct (map_result _ nodes); reflexivity.
Qed.

Lemma map_result_Forall2 {A B} (f : A -> result B) (P : A -> B -> Prop) xs :
  forall ys,
    map_result f xs = Ok ys ->
    (forall x y, In x xs -> f x = Ok y -> P x y) ->
    Forall2 P xs ys.
Proof.
  induction xs as [|x xs IH]; intros ys H HP.
  - injection H as <-. constructor.
  - cbn in H. destruct (f x) as [y|] eqn:Hx; [|discriminate].
    destruct (map_result f xs) as [zs|] eqn:Hm; [|discriminate].
    injection H as <-. constructor.
    + apply HP; [now left | exact Hx].
    + apply IH; [reflexivity|]. intros x' y' Hin. apply HP. now right.
Qed.

Lemma map_result_in_raise {A B} (f : A -> result B) xs x e :
  In x xs -> f x = Raise e -> exists e', map_result f xs = Raise e'.
Proof.
  induction xs as [|x' xs IH]; intros Hin Hx; [destruct Hin|].
  cbn. destruct (f x') as [y|e0] eqn:Hx'; [|eauto].
  destruct Hin as [->|Hin]; [congruence|].
  destruct (IH Hin Hx) as [e' ->]. eauto.
Qed.

Lemma mounted_node_path s n :
  In n (Spec.mounted_nodes s) ->
  Py.has_slash n = false
  /\ OS.child_of (conf_node_dir (obj s))
       (Py.path_join (conf_node_dir (obj s)) n) = true
  /\ OS.fs (os s) !! Py.path_join (conf_node_dir (obj s)) n = Some OS.KMount.
Proof.
  intros Hin. apply in_mounted_nodes in Hin as (p & <- & Hc & Hk).
  rewrite (child_of_join _ _ Hc). split; [apply has_slash_basename|]. auto.
Qed.

(** X12. When listing ['/by-ip'] returns and every mounted node is named by
    eight upper-case hexadecimal digits, the listing is ['.'], ['..'] and
    one dotted quad per mounted node, in the order of the nodes; each is the
    address [hex2ip] decodes from the node, and [readlink] of
    ['/by-ip/<address>'] returns the path of that node, which is a mount
    point. *)
Theorem by_ip_entries_resolve E s offset l s1 :
  readdir E "/by-ip" offset s = (Ok l, s1) ->
  Forall (fun n => Spec.is_hex8 n = true) (Spec.mounted_nodes s) ->
  exists ips,
    l = "." :: ".." :: ips
    /\ Forall2
         (fun node ip =>
            Codec.hex2ip node = Ok ip
            /\ Spec.is_dotted_quad ip = true
            /\ readlink ("/by-ip/" +:+ ip) s1
               = (Ok (Py.path_join (conf_node_dir (obj s)) node), s1)
            /\ OS.path_ismount (os s1)
                 (Py.path_join (conf_node_dir (obj s)) node) = true)
         (Spec.mounted_nodes s) ips.
Proof.
  intros Hrun Hhex. rewrite readdir_by_ip_run in Hrun.
  destruct (get_node_list_any E s) as (r & m' & Hgl & Hm' & Hr).
  rewrite Hgl in Hrun. destruct r as [nodes|e]; [|discriminate].
  destruct Hr as [-> _].
  destruct (map_result _ (Spec.mounted_nodes s)) as [ips|] eqn:Hips;
    [|discriminate].
  injection Hrun as <- <-. exists ips. split; [reflexivity|].
  eapply map_result_Forall2; [exact Hips|].
  intros node ip Hin Hnode. cbn beta in Hnode.
  rewrite Forall_forall in Hhex.
  pose proof (Hhex node (proj2 (list_elem_of_In _ _) Hin)) as Hn.
  rewrite (basename_no_slash node (hex8_no_slash node Hn)) in Hnode.
  destruct (hex2ip_of_hex8 node Hn) as (ip' & Hip' & Hback).
  rewrite Hnode in Hip'. injection Hip' as <-.
  destruct (hex8_any node Hn) as [Hl Hc].
  destruct (hex2ip_any_case node Hl Hc) as (ip' & Hip' & Hquad & Hslash & _).
  rewrite Hnode in Hip'. injection Hip' as <-.
  split; [exact Hnode|]. split; [exact Hquad|]. split.
  - unfold readlink.
    change (Py.startswith ("/by-ip/" +:+ ip) "/by-ip") with true. cbv iota.
    change ("/by-ip/" +:+ ip) with ("/by-ip" +:+ String "/" ip).
    rewrite basename_after_slash by exact Hslash. rewrite Hback. reflexivity.
  - destruct (mounted_node_path s node Hin) as (_ & _ & Hk).
    unfold OS.path_ismount. cbn [os OS.fs].
    destruct (Hm' (Py.path_join (conf_node_dir (obj s)) node))
      as [H|(_ & H & _)]; [|congruence].
    now rewrite H, Hk.
Qed.

(** X13. [get_node_list] lists every mount point of the node directory,
    whatever its name; a mount point whose name has fewer than seven
    characters makes the listing of ['/by-ip'] raise [ValueError], in the
    state in which the listing of ['/'] returns. *)
Theorem by_ip_listing_needs_identifiers E s offset l s1 node :
  get_node_list E s = (Ok l, s1) -> In node l ->
  (String.length node < 7)%nat ->
  readdir E "/" offset s = (Ok ("." :: ".." :: "by-ip" :: l), s1)
  /\ exists lit, readdir E "/by-ip" offset s = (Raise (ValueError 16 lit), s1).
Proof.
  intros Hrun Hin Hshort. split.
  - unfold readdir. change (String.eqb "/" "/") with true. cbv iota.
    rewrite (bind_ok _ _ _ _ _ (bind_ok _ _ _ _ _ Hrun)). reflexivity.
  - rewrite readdir_by_ip_run, Hrun.
    assert (Hb : Py.basename node = node).
    { destruct (get_node_list_any E s) as (r & m' & Hgl & _ & Hr).
      rewrite Hrun in Hgl. injection Hgl as <- _. destruct Hr as [-> _].
      apply basename_no_slash. now apply (mounted_node_path s). }
    destruct (proj2 (hex2ip_short_or_long node) Hshort) as [lit Hlit].
    destruct (map_result_in_raise
                (fun node => Codec.hex2ip (Py.basename node)) l node
                (ValueError 16 lit) Hin)
      as [e He]; [cbn beta; rewrite Hb; exact Hlit|].
    rewrite He. apply map_result_raises in He as (x & _ & Hx).
    destruct (hex2ip_raises _ _ Hx) as [lit' ->]. eauto.
Qed.


Lemma by_ip_entries_resolve_witness :
  exists ips,
    ["."; ".."; "192.168.1.1"; "10.11.12.13"] = "." :: ".." :: ips
    /\ Forall2
         (fun node ip =>
            Codec.hex2ip node = Ok ip
            /\ Spec.is_dotted_quad ip = true
            /\ readlink ("/by-ip/" +:+ ip) Fixture.two_nodes_state
               = (Ok (Py.path_join (conf_node_dir (obj Fixture.two_nodes_state))
                        node),
                  Fixture.two_nodes_state)
            /\ OS.path_ismount (os Fixture.two_nodes_state)
                 (Py.path_join (conf_node_dir (obj Fixture.two_nodes_state))
                    node) = true)
         (Spec.mounted_nodes Fixture.two_nodes_state) ips.
Proof.
  assert (Hrun : readdir Fixture.env_ok "/by-ip" 0 Fixture.two_nodes_state
                 = (Ok ["."; ".."; "192.168.1.1"; "10.11.12.13"],
                    Fixture.two_nodes_state))
    by (vm_compute; reflexivity).
  assert (Hhex : Forall (fun n => Spec.is_hex8 n = true)
                   (Spec.mounted_nodes Fixture.two_nodes_state)).
  { assert (H : Spec.mounted_nodes Fixture.two_nodes_state
                = ["C0A80101"; "0A0B0C0D"]) by (vm_compute; reflexivity).
    rewrite H. repeat constructor. }
  exact (by_ip_entries_resolve Fixture.env_ok Fixture.two_nodes_state 0
           ["."; ".."; "192.168.1.1"; "10.11.12.13"] Fixture.two_nodes_state
           Hrun Hhex).
Defined.

Lemma by_ip_listing_needs_identifiers_witness :
  readdir Fixture.env_ok "/" 0 Fixture.stray_mount_state
  = (Ok ["."; ".."; "by-ip"; "tmp"; "0A0B0C0D"], Fixture.stray_mount_state)
  /\ exists lit,
       readdir Fixture.env_ok "/by-ip" 0 Fixture.stray_mount_state
       = (Raise (ValueError 16 lit), Fixture.stray_mount_state).
Proof.
  refine (by_ip_listing_needs_identifiers Fixture.env_ok
            Fixture.stray_mount_state 0
            ["tmp"; "0A0B0C0D"] Fixture.stray_mount_state "tmp" _ _ _).
  - vm_compute. reflexivity.
  - now left.
  - cbn. lia.
Defined.
(** ** When [get_node_list] returns *)







(** ** What [read] does to the object *)

(** X15. [read] changes nothing for a path whose base name the pattern
    does not match.  For a matching name it consumes one export
    identifier when no directory creation is refused, whether or not the
    name decodes, and leaves every other attribute alone; when a creation
    is refused it leaves the object alone and issues no command. *)
Theorem read_consumes_one_fsid E s path length offset :
  let s' := snd (read E path length offset s) in
  if Py.node_re_match (Py.basename path) then
    if Spec.can_mkdir E s (Py.basename path) then
      obj s' = with_next_fsid (_next_fsid (obj s) + 1) (obj s)
    else obj s' = obj s /\ OS.trace (os s') = OS.trace (os s)
  else s' = s.
Proof.
  cbv zeta. destruct (Py.node_re_match (Py.basename path)) eqn:Hm.
  - rewrite read_run by exact Hm. rewrite setup_node_run.
    unfold Spec.can_mkdir. cbv zeta.
    destruct (Spec.refusal E _ _) as [[errno text]|]; [now destruct s|].
    destruct (Spec.refusal E _ _) as [[errno text]|]; [split; reflexivity|].
    destruct (Codec.hex2ip (Py.basename path)) as [ip|e] eqn:Hh; [reflexivity|].
    destruct (hex2ip_raises _ _ Hh) as [lit ->]. reflexivity.
  - unfold read. rewrite Hm. reflexivity.
Qed.

(** ** The constructor *)

(** ** [verify_permissions] *)

(** X17. [verify_permissions] changes nothing and raises nothing but
    [PXEBootError].  It returns exactly when the node, root and overlay
    directories are directories and the node and overlay directories can be
    read and written; the permissions on the root directory are never
    asked.  A missing directory is reported before any permission. *)
Theorem verify_permissions_checks access s :
  let o := obj s in
  let isdir := OS.path_isdir (os s) in
  let rw dir := access dir (Z.lor R_OK W_OK) in
  snd (verify_permissions access s) = s
  /\ fst (verify_permissions access s)
     = if negb (isdir (conf_node_dir o)) then
         Raise (PXEBootError ("Directory does not exist: " +:+ conf_node_dir o))
       else if negb (isdir (conf_root_dir o)) then
         Raise (PXEBootError ("Directory does not exist: " +:+ conf_root_dir o))
       else if negb (isdir (conf_overlay_dir o)) then
         Raise (PXEBootError ("Directory does not exist: " +:+ conf_overlay_dir o))
       else if negb (rw (conf_node_dir o)) then
         Raise (PXEBootError
                  ("Don't have read/write permissions on: " +:+ conf_node_dir o))
       else if negb (rw (conf_overlay_dir o)) then
         Raise (PXEBootError
                  ("Don't have read/write permissions on: " +:+ conf_overlay_dir o))
       else Ok tt.
Proof.
  cbv zeta. destruct s as [o w].
  cbv beta iota zeta delta
    [verify_permissions for_each bind ret raise when get_self ask_os obj os
     fst snd].
  destruct (OS.path_isdir w (conf_node_dir o)); cbv beta iota delta [negb];
    [|split; reflexivity].
  destruct (OS.path_isdir w (conf_root_dir o)); cbv beta iota delta [negb];
    [|split; reflexivity].
  destruct (OS.path_isdir w (conf_overlay_dir o)); cbv beta iota delta [negb];
    [|split; reflexivity].
  destruct (access (conf_node_dir o) (Z.lor R_OK W_OK));
    cbv beta iota delta [negb]; [|split; reflexivity].
  destruct (access (conf_overlay_dir o) (Z.lor R_OK W_OK));
    cbv beta iota delta [negb]; split; reflexivity.
Qed.

Example verify_permissions_started :
  fst (verify_permissions Fixture.access_all Fixture.started_state) = Ok tt
  /\ fst (verify_permissions Fixture.access_overlay_ro Fixture.started_state)
     = Raise (PXEBootError "Don't have read/write permissions on: /srv/overlay")
  /\ fst (verify_permissions Fixture.access_all Fixture.empty_state)
     = Raise (PXEBootError "Directory does not exist: /srv/nodes").
Proof. repeat split; vm_compute; reflexivity. Qed.

(** ** The size of a rendered template *)

(** X18. After [load_template] accepted a text, the text rendered for a
    name of eight characters is longer than the stored size by two for each
    marker past the first: the size [getattr] reports is the size of what
    [read] can deliver exactly when the template has one marker. *)
Theorem rendered_length_law text node s s' :
  load_template_text text s = (Ok tt, s') -> Py.len node = 8 ->
  let n := Py.count text "<NODE>" in
  let data := Py.replace text "<NODE>" node in
  1 <= n
  /\ get_pxe_data node s' = (Ok data, s')
  /\ Py.len data = pxe_template_length (obj s') + 2 * (n - 1)
  /\ (Py.len data = pxe_template_length (obj s') <-> n = 1).
Proof.
  intros Hrun Hlen. cbv zeta. rewrite load_template_text_run in Hrun.
  pose proof (find_count text "<NODE>") as Hfc.
  pose proof (count_go_nonneg "<NODE>" 0 text) as Hnn.
  fold (Py.count text "<NODE>") in Hnn.
  destruct (Z.eqb_spec (Py.find text "<NODE>") (-1)) as [He|Hne]; [discriminate|].
  injection Hrun as <-.
  assert (H1 : 1 <= Py.count text "<NODE>").
  { destruct (Z.eq_dec (Py.count text "<NODE>") 0) as [H0|]; [|lia].
    apply Hfc in H0. contradiction. }
  cbn [obj pxe_template pxe_template_length with_pxe_template_length
       with_pxe_template].
  assert (Hl : Py.len (Py.replace text "<NODE>" node)
               = Py.len text + Py.count text "<NODE>" * 2).
  { change "<NODE>" with (String "<" "NODE>") at 1.
    rewrite replace_length. change (String "<" "NODE>") with "<NODE>".
    rewrite Hlen. change (Py.len "<NODE>") with 6. lia. }
  split; [exact H1|]. split; [reflexivity|].
  change (Py.len "<NODE>") with 6. split; [lia|]. split; lia.
Qed.

Lemma rendered_length_law_witness :
  let s' := snd (load_template_text "a <NODE> b <NODE> c <NODE>" Fixture.empty_state) in
  Py.len (Py.replace "a <NODE> b <NODE> c <NODE>" "<NODE>" "C0A80101")
  = pxe_template_length (obj s') + 2 * (3 - 1).
Proof.
  cbv zeta.
  apply (rendered_length_law "a <NODE> b <NODE> c <NODE>" "C0A80101"
           Fixture.empty_state
           (snd (load_template_text "a <NODE> b <NODE> c <NODE>"
                   Fixture.empty_state)));
    reflexivity.
Defined.

(** ** Time stamps and owner *)

Lemma int_of_time_floor (t : Q) :
  (0 <= t)%Q ->
  (inject_Z (int_of_time t) <= t)%Q /\ (t < inject_Z (int_of_time t) + 1)%Q.
Proof.
  destruct t as [a b]. unfold int_of_time, Qle, Qlt, Qplus, inject_Z.
  cbn [Qnum Qden]. intros Ha. rewrite Z.mul_1_r in Ha.
  rewrite Z.quot_div_nonneg by lia.
  pose proof (Z.div_mod a (Z.pos b) ltac:(lia)) as Hdm.
  pose proof (Z.mod_pos_bound a (Z.pos b) ltac:(lia)) as Hb.
  change (Z.pos (1 * 1)) with 1. split; nia.
Qed.

(** X19. Whatever the path, the attributes [getattr] returns carry the
    time of [fsinit], cut to whole seconds, in all three time stamps, the
    user and group of the process, and device and inode number 0. *)
Theorem getattr_stamps E s now path st s1 :
  getattr E path (snd (fsinit now s)) = (Ok (AStat st), s1) ->
  st_atime st = int_of_time now
  /\ st_ctime st = int_of_time now
  /\ st_mtime st = int_of_time now
  /\ st_uid st = OS.getuid E
  /\ st_gid st = OS.getgid E
  /\ st_dev st = 0
  /\ st_ino st = 0
  /\ s1 = snd (fsinit now s)
  /\ ((0 <= now)%Q ->
      (inject_Z (st_mtime st) <= now)%Q /\ (now < inject_Z (st_mtime st) + 1)%Q).
Proof.
  unfold getattr, fsinit, set_self, bind, get_self, ret. cbn [snd obj os].
  assert (Hrt : root_time (with_root_time now (obj s)) = now)
    by now destruct s as [[]].
  rewrite Hrt. intros H.
  assert (Hst : exists m z n,
            st = with_mode_size_nlink m z n (new_Stat E now)
            /\ s1 = State (with_root_time now (obj s)) (os s)).
  { destruct (String.eqb path "/" || String.eqb path "/by-ip");
      [injection H as <- <-; eauto|].
    destruct (Py.startswith path "/by-ip/" && (Py.len "/by-ip" <? Py.len path));
      [injection H as <- <-; eauto|].
    destruct (Py.node_re_match (Py.basename path));
      [injection H as <- <-; eauto|discriminate]. }
  destruct Hst as (m & z & n & -> & ->).
  do 8 (split; [reflexivity|]).
  intros Hnow. exact (int_of_time_floor now Hnow).
Qed.

Lemma getattr_stamps_witness :
  exists st,
    getattr Fixture.env_ok "/" (snd (fsinit (5 # 2) Fixture.empty_state))
    = (Ok (AStat st), snd (fsinit (5 # 2) Fixture.empty_state))
    /\ st_mtime st = 2.
Proof.
  eexists. split; [reflexivity|].
  apply (getattr_stamps Fixture.env_ok Fixture.empty_state (5 # 2) "/" _
           (snd (fsinit (5 # 2) Fixture.empty_state))).
  reflexivity.
Defined.

